(** * JSMockServer: the mapping engine of [mock_server.js]

    A shallow embedding of [mock_server.js], the module that binds a
    PhantomJS web server to a port and answers requests from an ordered
    list of request/response mappings, and the properties of its design
    document checked against it.  The source file holds two revisions of
    the module; the later one (version 0.0.1, from line 386 on), which
    validates the port and has [close], is the one embedded.

    Conventions of the embedding.
    - JavaScript strings are [string]s; case mapping and white space are
      the ASCII ones (code units above 127 are left alone).
    - JavaScript numbers are integer valued or NaN ([jsnum]); the only
      arithmetic the module does on them is comparison.
    - Request patterns and response plans are objects of the documented
      shape: the properties of a pattern are strings or missing, and a
      plan is always an object.  What the source does on other values
      (a [response] called without a plan, a method that is a number)
      is outside the embedding.
    - A [throw] is the [Throw] outcome of [completion]; the state reached
      before the throw is kept, as it is in the single-threaded host.
    - What the host platform provides (the RegExp engine, [fs.read],
      [server.listen], the presence of CasperJS) is a [Host] record the
      definitions are parameterised by. *)

From Stdlib Require Import ZArith Ascii String Bool List Lia.
From stdpp Require Import base option list strings functions gmap.

Open Scope string_scope.
Open Scope list_scope.
Open Scope Z_scope.

(** ** JavaScript values and string primitives *)

Module JS.

(** A number: integer valued, or NaN. *)
Inductive jsnum :=
| JInt (z : Z)
| JNaN.

(** Relational operators: any comparison with NaN is false. *)
Definition num_gt (a b : jsnum) : bool :=
  match a, b with
  | JInt x, JInt y => y <? x
  | _, _ => false
  end.

Definition num_lt (a b : jsnum) : bool :=
  match a, b with
  | JInt x, JInt y => x <? y
  | _, _ => false
  end.

(** [a === b] on numbers; NaN is not equal to itself. *)
Definition num_eq (a b : jsnum) : bool :=
  match a, b with
  | JInt x, JInt y => x =? y
  | _, _ => false
  end.

(** The values that reach the module. *)
Inductive jsval :=
| JUndefined
| JNull
| JBool (b : bool)
| JNum (n : jsnum)
| JStr (s : string)
| JObj (o : gmap string string).

(** ToBoolean. *)
Definition truthy (v : jsval) : bool :=
  match v with
  | JUndefined | JNull => false
  | JBool b => b
  | JNum (JInt z) => negb (z =? 0)
  | JNum JNaN => false
  | JStr s => negb (String.eqb s EmptyString)
  | JObj _ => true
  end.

(** [isString] and [isNumber] of the module. *)
Definition isString (myVar : jsval) : bool :=
  match myVar with JStr _ => true | _ => false end.

Definition isNumber (myVar : jsval) : bool :=
  match myVar with JNum _ => true | _ => false end.

(** A property that may be missing: [None] reads as [undefined]. *)
Definition truthy_str (o : option string) : bool :=
  match o with
  | Some s => negb (String.eqb s EmptyString)
  | None => false
  end.

(** *** Case mapping *)

Definition upper_ascii (c : ascii) : ascii :=
  let n := nat_of_ascii c in
  if ((97 <=? n) && (n <=? 122))%nat then ascii_of_nat (n - 32) else c.

Definition lower_ascii (c : ascii) : ascii :=
  let n := nat_of_ascii c in
  if ((65 <=? n) && (n <=? 90))%nat then ascii_of_nat (n + 32) else c.

Fixpoint toUpperCase (s : string) : string :=
  match s with
  | EmptyString => EmptyString
  | String c s' => String (upper_ascii c) (toUpperCase s')
  end.

Fixpoint toLowerCase (s : string) : string :=
  match s with
  | EmptyString => EmptyString
  | String c s' => String (lower_ascii c) (toLowerCase s')
  end.

(** *** Searching *)

(** [s.indexOf(p)]: the least position at which [p] occurs in [s], or -1. *)
Fixpoint indexOf_from (i : Z) (s p : string) : Z :=
  if String.prefix p s then i
  else match s with
       | EmptyString => -1
       | String _ s' => indexOf_from (i + 1) s' p
       end.

Definition indexOf (s p : string) : Z := indexOf_from 0 s p.

(** *** Trimming *)

Definition is_space (c : ascii) : bool :=
  let n := nat_of_ascii c in
  ((9 <=? n) && (n <=? 13) || (n =? 32))%nat.

Fixpoint trim_left (s : string) : string :=
  match s with
  | String c s' => if is_space c then trim_left s' else s
  | EmptyString => EmptyString
  end.

Fixpoint trim_right (s : string) : string :=
  match s with
  | EmptyString => EmptyString
  | String c s' =>
      match trim_right s' with
      | EmptyString => if is_space c then EmptyString else String c EmptyString
      | t => String c t
      end
  end.

Definition trim (s : string) : string := trim_right (trim_left s).

(** *** parseInt *)

Definition digit_value (c : ascii) : option Z :=
  let n := Z.of_nat (nat_of_ascii c) in
  if (48 <=? n) && (n <=? 57) then Some (n - 48)
  else if (97 <=? n) && (n <=? 122) then Some (n - 87)
  else if (65 <=? n) && (n <=? 90) then Some (n - 55)
  else None.

(** The longest prefix of digits of the radix, read as a number;
    [acc] is [None] until a digit has been read. *)
Fixpoint parse_digits (radix : Z) (s : string) (acc : option Z) : option Z :=
  match s with
  | EmptyString => acc
  | String c s' =>
      match digit_value c with
      | Some d =>
          if d <? radix
          then parse_digits radix s' (Some (default 0 acc * radix + d))
          else acc
      | None => acc
      end
  end.

(** [parseInt(s)] without a radix argument: leading white space, a sign,
    a [0x] prefix, then digits; NaN when there is no digit. *)
Definition parseInt (s : string) : jsnum :=
  let s1 := trim_left s in
  let '(sign, s2) :=
    match s1 with
    | String "-"%char r => (-1, r)
    | String "+"%char r => (1, r)
    | _ => (1, s1)
    end in
  let '(radix, s3) :=
    match s2 with
    | String "0"%char (String "x"%char r) => (16, r)
    | String "0"%char (String "X"%char r) => (16, r)
    | _ => (10, s2)
    end in
  match parse_digits radix s3 None with
  | Some n => JInt (sign * n)
  | None => JNaN
  end.

(** *** Quoting *)

Definition dquote : ascii := ascii_of_nat 34.
Definition backslash : ascii := ascii_of_nat 92.

(** The global replace of [when]: a backslash is put before every
    double quote. *)
Fixpoint escape_quotes (s : string) : string :=
  match s with
  | EmptyString => EmptyString
  | String c s' =>
      if Ascii.eqb c dquote
      then String backslash (String dquote (escape_quotes s'))
      else String c (escape_quotes s')
  end.

Definition hex_digit (n : nat) : ascii :=
  if (n <? 10)%nat then ascii_of_nat (48 + n) else ascii_of_nat (87 + n).

(** The escape JSON.stringify writes for one character of a string. *)
Definition json_escape (c : ascii) : string :=
  let n := nat_of_ascii c in
  if Ascii.eqb c dquote then String backslash (String dquote EmptyString)
  else if Ascii.eqb c backslash then String backslash (String backslash EmptyString)
  else if (n =? 8)%nat then "\b"
  else if (n =? 9)%nat then "\t"
  else if (n =? 10)%nat then "\n"
  else if (n =? 12)%nat then "\f"
  else if (n =? 13)%nat then "\r"
  else if (n <? 32)%nat
       then "\u00" +:+ String (hex_digit (n / 16)) (String (hex_digit (n mod 16)) EmptyString)
       else String c EmptyString.

Fixpoint json_escape_all (s : string) : string :=
  match s with
  | EmptyString => EmptyString
  | String c s' => json_escape c +:+ json_escape_all s'
  end.

(** [JSON.stringify(s)] for a string [s]. *)
Definition JSON_stringify (s : string) : string :=
  String dquote (json_escape_all s +:+ String dquote EmptyString).

End JS.

Import JS.

(** ** Data model *)

(** The request object handed to [when]:
    [{url: ..., method: ..., data: ...}], every property optional. *)
Record RequestPattern := {
  method : option string;
  url : option string;
  data : option string
}.

(** The module's own [{}]. *)
Definition empty_object : RequestPattern :=
  {| method := None; url := None; data := None |}.

(** [Object.keys(req).length]. *)
Definition has_key (property : option string) : nat :=
  match property with
  | Some _ => 1
  | None => 0
  end.

Definition keys_length (req : RequestPattern) : nat :=
  (has_key (method req) + has_key (url req) + has_key (data req))%nat.

(** The response object handed to [response]; a missing property is
    [JUndefined]. *)
Record ResponsePlan := {
  status : jsval;
  headers : jsval;
  responseTime : jsval;
  isTimeout : jsval;
  responseText : jsval;
  responseFile : jsval
}.

(** Request objects are shared with the caller: [when] changes the
    object it is given in place and the mapping holds a reference to it.
    A reference is an address in the store of request objects. *)
Abbreviation ref := nat.

(** An element of [_mapping]: [{request: ..., response: ...}]. *)
Module Entry.
Record t := {
  request : ref;
  response : ResponsePlan
}.
End Entry.

(** The request the web server hands to the listener. *)
Record Request := {
  req_method : string;
  req_url : string;
  post : option string
}.

(** The [requestData] CasperJS hands to [onResourceRequested]. *)
Record RequestData := {
  rd_method : string;
  rd_url : string;
  postData : option string
}.

(** What [casper.options.onResourceRequested] currently is. *)
Inductive hook :=
| existing_hook   (* [_existingOnResourceRequested] *)
| bridge_hook.    (* the filter installed by [addToResourceRequestedEvent] *)

(** The module-level variables, and the store of request objects. *)
Record State := {
  objects : ref -> RequestPattern;
  _mapping : list Entry.t;
  _port : jsnum;
  _isServerUp : bool;
  _currentReq : option ref;      (* [None]: the module's own [{}] *)
  server : bool;                 (* [false]: [null] *)
  onResourceRequested : hook
}.

(** The object [_currentReq] denotes. *)
Definition currentReq (s : State) : RequestPattern :=
  match _currentReq s with
  | Some r => objects s r
  | None => empty_object
  end.

(** The state when the module is loaded. *)
Definition initial (objs : ref -> RequestPattern) : State :=
  {| objects := objs; _mapping := []; _port := JInt 0; _isServerUp := false;
     _currentReq := None; server := false; onResourceRequested := existing_hook |}.

(** *** Exceptions *)

Definition invalid_port_msg : string := "Invalid port number: ".
Definition out_of_range_msg : string :=
  "Port number is out of the range[1025-49151]: ".
Definition not_started_msg : string := "Mock Server is NOT started successfully.".
Definition pending_when_msg : string :=
  "You have .when() been called, but NO .response() following to define the expected response.".
Definition no_when_msg : string :=
  "Please call .when() to set the request pattern first".

Inductive exn :=
| Thrown (msg : string)                      (* [throw msg] *)
| ThrownAbout (msg : string) (port : jsval)  (* [throw msg + port] *)
| SyntaxError (pattern : string)             (* [new RegExp(pattern)] *)
| TypeError.                                 (* a method of [undefined] *)

Inductive completion (A : Type) :=
| Normal (a : A)
| Throw (e : exn).
Arguments Normal {A} a.
Arguments Throw {A} e.

(** The outcome of a call that changes the module's state. *)
Definition outcome : Type := State * completion unit.

(** [a || b] and [a && b] in a condition: the right operand is looked at
    only when the left one does not decide, and a throw on the left wins. *)
Definition js_or (a b : completion bool) : completion bool :=
  match a with
  | Normal false => b
  | _ => a
  end.

Definition js_and (a b : completion bool) : completion bool :=
  match a with
  | Normal true => b
  | _ => a
  end.

Infix "|||" := js_or (at level 50, left associativity).
Infix "&&&" := js_and (at level 40, left associativity).

(** *** What a call of the listener does *)

Inductive message :=
| log_pending_when
| log_matched (u : string) (expReq : RequestPattern)
| log_simulate_timeout (u : string)
| log_served_from_file (u : string) (file : jsval)
| log_error (file : jsval)
| log_served (u : string) (timeout : jsnum) (st : jsval) (text : string) (hd : jsval)
| log_no_match (u : string).

#[local] Unset Elimination Schemes.
Inductive event :=
| console_log (m : message)
| set_statusCode (v : jsval)
| set_headers (v : jsval)
| response_write (text : string)
| response_close
| setTimeout (callback : list event) (delay : jsnum).
#[local] Set Elimination Schemes.

(** What a call of the filter on [onResourceRequested] does. *)
Inductive hook_event :=
| call_existing
| request_changeUrl (u : string) (port : jsnum).

(** *** The host platform *)

Record Host := {
  (** [new RegExp(p).test(s)]; [None] when [p] does not compile. *)
  RegExp_test : string -> string -> option bool;
  (** [fs.read(file)]; [None] when it throws. *)
  fs_read : jsval -> option string;
  (** [server.listen(port, handler)]: whether the port was bound. *)
  server_listen : jsnum -> bool;
  (** Whether the script runs under CasperJS. *)
  isCasperInUsed : bool;
  (** Whether [_existingOnResourceRequested] is a function. *)
  existing_is_function : bool
}.

(** ** The module *)

Section MockServer.

Variable host : Host.

(** The string of a property read where the source has already tested
    that the property is there. *)
Definition str (property : option string) : string :=
  default EmptyString property.

Definition test (p s : string) : completion bool :=
  match RegExp_test host p s with
  | Some b => Normal b
  | None => Throw (SyntaxError p)
  end.

(** [reset] (lines 599-606). *)
Definition reset (s : State) : State :=
  {| objects := objects s;
     _mapping := [];
     _port := _port s;
     _isServerUp := _isServerUp s;
     _currentReq := None;
     server := server s;
     onResourceRequested :=
       if isCasperInUsed host then existing_hook else onResourceRequested s |}.

(** [close] (lines 546-554). *)
Definition close (s : State) : State :=
  let s1 := reset s in
  {| objects := objects s1;
     _mapping := _mapping s1;
     _port := JInt 0;
     _isServerUp := false;
     _currentReq := _currentReq s1;
     server := false;
     onResourceRequested := onResourceRequested s1 |}.

(** [when] (lines 562-568): the object behind [req] is changed in
    place, then [_currentReq] refers to it. *)
Definition when (req : ref) (s : State) : State :=
  let o := objects s req in
  let o' :=
    if truthy_str (data o)
    then {| method := method o; url := url o;
            data := Some (escape_quotes (str (data o))) |}
    else o in
  {| objects := <[req := o']> (objects s);
     _mapping := _mapping s;
     _port := _port s;
     _isServerUp := _isServerUp s;
     _currentReq := Some req;
     server := server s;
     onResourceRequested := onResourceRequested s |}.

(** [addToResourceRequestedEvent] (lines 613-668). *)
Definition addToResourceRequestedEvent (s : State) : State :=
  if num_eq (_port s) (JInt 0) then s
  else if negb (isCasperInUsed host) then s
  else
    {| objects := objects s;
       _mapping := _mapping s;
       _port := _port s;
       _isServerUp := _isServerUp s;
       _currentReq := _currentReq s;
       server := server s;
       onResourceRequested := bridge_hook |}.

(** [response] (lines 576-591).  [Object.keys(_currentReq).length] is 0
    for the module's own [{}] and for a request object without
    properties. *)
Definition response (resp : ResponsePlan) (s : State) : outcome :=
  match _currentReq s with
  | None => (s, Throw (Thrown no_when_msg))
  | Some req =>
      if (keys_length (objects s req) =? 0)%nat
      then (s, Throw (Thrown no_when_msg))
      else
        let s1 :=
          {| objects := objects s;
             _mapping := _mapping s ++ [{| Entry.request := req; Entry.response := resp |}];
             _port := _port s;
             _isServerUp := _isServerUp s;
             _currentReq := _currentReq s;
             server := server s;
             onResourceRequested := onResourceRequested s |} in
        let s2 := addToResourceRequestedEvent s1 in
        ({| objects := objects s2;
            _mapping := _mapping s2;
            _port := _port s2;
            _isServerUp := _isServerUp s2;
            _currentReq := None;
            server := server s2;
            onResourceRequested := onResourceRequested s2 |}, Normal ())
  end.

(** [isServerUp] (lines 675-677). *)
Definition isServerUp (s : State) : bool := _isServerUp s.

(** *** The listener *)

(** The condition of the [if] in the loop of the listener (lines 463-467). *)
Definition listen_cond (expReq : RequestPattern) (request : Request)
  : completion bool :=
  (Normal (negb (truthy_str (method expReq)))
     ||| Normal (String.eqb (toUpperCase (str (method expReq))) (req_method request)))
  &&& (Normal (negb (truthy_str (url expReq)))
         ||| Normal (0 <=? indexOf (req_url request) (str (url expReq)))
         ||| test (str (url expReq)) (req_url request))
  &&& (Normal (negb (truthy_str (data expReq)))
         ||| (Normal (truthy_str (post request))
                &&& Normal (0 <=? indexOf (JSON_stringify (str (post request)))
                                          (str (data expReq))))
         ||| (Normal (truthy_str (post request))
                &&& test (str (data expReq)) (JSON_stringify (str (post request))))).

(** The test on [expResp.isTimeout] (line 478). *)
Definition simulates_timeout (expResp : ResponsePlan) : bool :=
  match isTimeout expResp with
  | JBool true => true
  | JStr t => String.eqb (toLowerCase t) "true"
  | _ => false
  end.

(** The body of the [if] (lines 469-509): the response for a matched
    entry. *)
Definition build_response (expReq : RequestPattern) (expResp : ResponsePlan)
    (request : Request) : list event :=
  let status_ := if truthy (status expResp) then status expResp else JNum (JInt 200) in
  let headers_ := if truthy (headers expResp) then headers expResp else JObj ∅ in
  [console_log (log_matched (req_url request) expReq);
   set_statusCode status_;
   set_headers headers_]
  ++
  if simulates_timeout expResp
  then [console_log (log_simulate_timeout (req_url request))]
  else
    let timeout :=
      match responseTime expResp with
      | JNum n => n
      | _ => JInt 0
      end in
    let '(logs, responseText_) :=
      if negb (isString (responseText expResp)) && truthy (responseFile expResp)
      then
        match fs_read host (responseFile expResp) with
        | Some content =>
            ([console_log (log_served_from_file (req_url request) (responseFile expResp))],
             JStr content)
        | None =>
            ([console_log (log_served_from_file (req_url request) (responseFile expResp));
              console_log (log_error (responseFile expResp))],
             responseText expResp)
        end
      else ([], responseText expResp) in
    let text :=
      match responseText_ with
      | JStr t => t
      | _ => EmptyString
      end in
    logs ++
    [setTimeout
       [response_write text;
        response_close;
        console_log (log_served (req_url request) timeout status_ text headers_)]
       timeout].

(** The [for] loop of the listener (lines 458-513) over the entries
    from some index on: what it does, and [isMatched] when it is left. *)
Fixpoint match_loop (s : State) (entries : list Entry.t) (request : Request)
  : list event * completion bool :=
  match entries with
  | [] => ([], Normal false)
  | e :: rest =>
      let expReq := objects s (Entry.request e) in
      match listen_cond expReq request with
      | Throw x => ([], Throw x)
      | Normal true => (build_response expReq (Entry.response e) request, Normal true)
      | Normal false => match_loop s rest request
      end
  end.

(** The function [start] hands to [server.listen] (lines 446-522). *)
Definition listen_handler (s : State) (request : Request)
  : list event * completion unit :=
  if negb (keys_length (currentReq s) =? 0)%nat
  then ([console_log log_pending_when;
         response_write pending_when_msg;
         response_close],
        Throw (Thrown pending_when_msg))
  else
    match match_loop s (_mapping s) request with
    | (evs, Throw x) => (evs, Throw x)
    | (evs, Normal true) => (evs, Normal ())
    | (evs, Normal false) =>
        (evs ++ [console_log (log_no_match (req_url request));
                 set_statusCode (JNum (JInt 404));
                 response_close],
         Normal ())
    end.

(** [start] (lines 411-539). *)
Definition start (port : jsval) (s : State) : outcome :=
  match
    match port with
    | JStr p => Normal (parseInt (trim p))
    | JNum n => Normal n
    | _ => Throw (ThrownAbout invalid_port_msg port)
    end
  with
  | Throw e => (s, Throw e)
  | Normal thisPort =>
      if num_gt thisPort (JInt 49151) || num_lt thisPort (JInt 1025)
      then (s, Throw (ThrownAbout out_of_range_msg port))
      else if _isServerUp s && num_eq thisPort (_port s)
      then (reset s, Normal ())
      else
        let s1 :=
          if _isServerUp s && negb (num_eq thisPort (_port s)) then close s else s in
        let s2 :=
          {| objects := objects s1;
             _mapping := _mapping s1;
             _port := thisPort;
             _isServerUp := _isServerUp s1;
             _currentReq := _currentReq s1;
             server := true;
             onResourceRequested := onResourceRequested s1 |} in
        let s3 := addToResourceRequestedEvent s2 in
        let result := server_listen host thisPort in
        let s4 :=
          {| objects := objects s3;
             _mapping := _mapping s3;
             _port := _port s3;
             _isServerUp := result;
             _currentReq := _currentReq s3;
             server := server s3;
             onResourceRequested := onResourceRequested s3 |} in
        if result then (s4, Normal ()) else (s4, Throw (Thrown not_started_msg))
  end.

(** *** The filter installed on [casper.options.onResourceRequested] *)

(** The condition of the [if] in [changeUrl] (lines 632-636). *)
Definition changeUrl_cond (expReq : RequestPattern) (requestData : RequestData)
  : completion bool :=
  (Normal (negb (truthy_str (method expReq)))
     ||| Normal (String.eqb (toUpperCase (str (method expReq))) (rd_method requestData)))
  &&& (Normal (negb (truthy_str (url expReq)))
         ||| Normal (0 <=? indexOf (rd_url requestData) (str (url expReq)))
         ||| test (str (url expReq)) (rd_url requestData))
  &&& (Normal (negb (truthy_str (data expReq)))
         ||| match postData requestData with
             | Some body => Normal (0 <=? indexOf body (str (data expReq)))
             | None => Throw TypeError
             end
         ||| test (str (data expReq)) (str (postData requestData))).

(** [changeUrl] (lines 631-652): the url and the port the request is
    redirected to, if it is. *)
Definition changeUrl (s : State) (expReq : RequestPattern) (requestData : RequestData)
  : list hook_event * completion unit :=
  match changeUrl_cond expReq requestData with
  | Throw x => ([], Throw x)
  | Normal true => ([request_changeUrl (rd_url requestData) (_port s)], Normal ())
  | Normal false => ([], Normal ())
  end.

(** The loop over [_mapping] (lines 654-657): every entry is tried. *)
Fixpoint changeUrl_each (s : State) (entries : list Entry.t) (requestData : RequestData)
  : list hook_event * completion unit :=
  match entries with
  | [] => ([], Normal ())
  | e :: rest =>
      match changeUrl s (objects s (Entry.request e)) requestData with
      | (evs, Throw x) => (evs, Throw x)
      | (evs, Normal _) =>
          let '(evs', c) := changeUrl_each s rest requestData in
          (evs ++ evs', c)
      end
  end.

(** The function assigned to [casper.options.onResourceRequested]
    (lines 626-663). *)
Definition bridge_filter (s : State) (requestData : RequestData)
  : list hook_event * completion unit :=
  let before := if existing_is_function host then [call_existing] else [] in
  match changeUrl_each s (_mapping s) requestData with
  | (evs, Throw x) => (before ++ evs, Throw x)
  | (evs, Normal _) =>
      if negb (keys_length (currentReq s) =? 0)%nat
      then
        let '(evs', c) := changeUrl s (currentReq s) requestData in
        (before ++ evs ++ evs', c)
      else (before ++ evs, Normal ())
  end.

End MockServer.

(** ** An example host

    A small regular-expression engine, by derivatives, for the fragment
    of the RegExp syntax made of literal characters, [.], escaped
    punctuation, groups, [|] and the quantifiers [*], [+] and [?].  It
    instantiates [RegExp_test] in the closed examples below; a pattern
    outside the fragment is reported as one that does not compile.  The
    general theorems hold for every host. *)

Module MiniRegExp.

Inductive regex :=
| Never
| Eps
| Class (f : ascii -> bool)
| Cat (r1 r2 : regex)
| Alt (r1 r2 : regex)
| Star (r : regex).

Fixpoint nullable (r : regex) : bool :=
  match r with
  | Never => false
  | Eps => true
  | Class _ => false
  | Cat r1 r2 => nullable r1 && nullable r2
  | Alt r1 r2 => nullable r1 || nullable r2
  | Star _ => true
  end.

Fixpoint deriv (c : ascii) (r : regex) : regex :=
  match r with
  | Never => Never
  | Eps => Never
  | Class f => if f c then Eps else Never
  | Cat r1 r2 =>
      if nullable r1
      then Alt (Cat (deriv c r1) r2) (deriv c r2)
      else Cat (deriv c r1) r2
  | Alt r1 r2 => Alt (deriv c r1) (deriv c r2)
  | Star r1 => Cat (deriv c r1) (Star r1)
  end.

(** Whether [r] matches the whole of [s]. *)
Fixpoint matches (r : regex) (s : string) : bool :=
  match s with
  | EmptyString => nullable r
  | String c s' => matches (deriv c r) s'
  end.

Definition anything : regex := Star (Class (fun _ => true)).

(** Whether [r] matches somewhere in [s]. *)
Definition search (r : regex) (s : string) : bool :=
  matches (Cat anything (Cat r anything)) s.

Definition is_line_end (c : ascii) : bool :=
  let n := nat_of_ascii c in ((n =? 10) || (n =? 13))%nat.

Definition is_alnum (c : ascii) : bool :=
  match digit_value c with Some _ => true | None => false end.

Definition is_meta (c : ascii) : bool :=
  existsb (Ascii.eqb c)
    ["*"; "+"; "?"; "("; ")"; "|"; "["; "]"; "{"; "}"; "^"; "$"; "\"; "."]%char.

(** A quantifier after an atom, and a [?] that makes it lazy. *)
Definition quantified (a : regex) (s : string) : regex * string :=
  let lazy (rest : string) :=
    match rest with
    | String "?"%char rest' => rest'
    | _ => rest
    end in
  match s with
  | String "*"%char rest => (Star a, lazy rest)
  | String "+"%char rest => (Cat a (Star a), lazy rest)
  | String "?"%char rest => (Alt a Eps, lazy rest)
  | _ => (a, s)
  end.

Fixpoint disjunction (fuel : nat) (s : string) : option (regex * string) :=
  match fuel with
  | O => None
  | S n =>
      match alternative n s with
      | Some (r1, String "|"%char rest) =>
          match disjunction n rest with
          | Some (r2, rest') => Some (Alt r1 r2, rest')
          | None => None
          end
      | other => other
      end
  end
with alternative (fuel : nat) (s : string) : option (regex * string) :=
  match fuel with
  | O => None
  | S n =>
      match s with
      | EmptyString => Some (Eps, s)
      | String "|"%char _ => Some (Eps, s)
      | String ")"%char _ => Some (Eps, s)
      | _ =>
          match atom n s with
          | Some (a, rest) =>
              let '(t, rest1) := quantified a rest in
              match alternative n rest1 with
              | Some (r, rest2) => Some (Cat t r, rest2)
              | None => None
              end
          | None => None
          end
      end
  end
with atom (fuel : nat) (s : string) : option (regex * string) :=
  match fuel with
  | O => None
  | S n =>
      match s with
      | EmptyString => None
      | String "."%char rest => Some (Class (fun c => negb (is_line_end c)), rest)
      | String "\"%char (String c rest) =>
          if is_alnum c then None else Some (Class (Ascii.eqb c), rest)
      | String "("%char rest =>
          match disjunction n rest with
          | Some (r, String ")"%char rest') => Some (r, rest')
          | _ => None
          end
      | String c rest => if is_meta c then None else Some (Class (Ascii.eqb c), rest)
      end
  end.

Definition compile (p : string) : option regex :=
  match disjunction (4 * String.length p + 4) p with
  | Some (r, EmptyString) => Some r
  | _ => None
  end.

Definition test (p s : string) : option bool :=
  match compile p with
  | Some r => Some (search r s)
  | None => None
  end.

End MiniRegExp.

(** A host outside CasperJS, with one file to read, on which every port
    can be bound. *)
Definition example_host : Host :=
  {| RegExp_test := MiniRegExp.test;
     fs_read := fun file =>
       match file with
       | JStr "./mytest.txt" => Some "the content of mytest.txt"
       | _ => None
       end;
     server_listen := fun _ => true;
     isCasperInUsed := false;
     existing_is_function := false |}.

(** ** The vocabulary of the design document *)

(** [p] occurs in [s]. *)
Definition is_substring (p s : string) : Prop :=
  exists before after, s = before +:+ p +:+ after.

(** Equality of strings up to the case of letters. *)
Definition eq_ignore_case (a b : string) : Prop :=
  toLowerCase a = toLowerCase b.

(** An upper-case string, as the method of an inbound request is. *)
Definition is_upper (a : string) : Prop := toUpperCase a = a.

(** The test the source makes on the pending slot,
    [Object.keys(_currentReq).length === 0]: the slot holds the module's
    own [{}], or an object of the caller that has no property. *)
Definition no_pending (s : State) : Prop := keys_length (currentReq s) = 0%nat.

(** A pattern was submitted by [when] and has not been paired by
    [response] nor dropped by [reset]: the slot refers to an object of
    the caller. *)
Definition submitted (s : State) (req : ref) : Prop := _currentReq s = Some req.

(** Nothing was submitted: the slot holds the module's own [{}]. *)
Definition nothing_submitted (s : State) : Prop := _currentReq s = None.

(** The error classes. *)
Definition InvalidPortError (e : exn) : Prop :=
  exists port,
    e = ThrownAbout invalid_port_msg port \/ e = ThrownAbout out_of_range_msg port.

Definition UnmatchedPatternError (e : exn) : Prop :=
  e = Thrown no_when_msg.

(** The state with another mapping list. *)
Definition with_mapping (s : State) (entries : list Entry.t) : State :=
  {| objects := objects s;
     _mapping := entries;
     _port := _port s;
     _isServerUp := _isServerUp s;
     _currentReq := _currentReq s;
     server := server s;
     onResourceRequested := onResourceRequested s |}.

(** A sequence of configuration calls of a test script; a [response]
    that throws leaves the state as it was. *)
Inductive call :=
| call_when (req : ref)
| call_response (resp : ResponsePlan).

Definition step (host : Host) (s : State) (c : call) : State :=
  match c with
  | call_when req => when req s
  | call_response resp => fst (response host resp s)
  end.

Definition run (host : Host) (calls : list call) (s : State) : State :=
  foldl (step host) s calls.

(** The pattern of an entry, and whether the listener takes the entry
    for a request. *)
Definition pattern_of (s : State) (e : Entry.t) : RequestPattern :=
  objects s (Entry.request e).

Definition matched (host : Host) (s : State) (e : Entry.t) (request : Request) : Prop :=
  listen_cond host (pattern_of s e) request = Normal true.

(** The entry at index [i] is the first one the listener takes: it is
    taken, and every entry before it is evaluated and not taken. *)
Definition first_match (host : Host) (s : State) (request : Request)
    (i : nat) (e : Entry.t) : Prop :=
  _mapping s !! i = Some e
  /\ matched host s e request
  /\ forall j e', (j < i)%nat -> _mapping s !! j = Some e' ->
       listen_cond host (pattern_of s e') request = Normal false.

(** An event that delivers a response: a write, a close, or a timer. *)
Definition delivers (ev : event) : bool :=
  match ev with
  | response_write _ | response_close | setTimeout _ _ => true
  | _ => false
  end.

(** *** The three-part rule, in the words of the design document *)

Section Rule.

Variable host : Host.
Variable absent : option string -> Prop.
Variable has_body : option string -> Prop.

Definition method_rule (p : RequestPattern) (m : string) : Prop :=
  absent (method p) \/ exists pm, method p = Some pm /\ eq_ignore_case pm m.

Definition compiles_and_matches (re subject : string) : Prop :=
  RegExp_test host re subject = Some true.

Definition url_rule (p : RequestPattern) (u : string) : Prop :=
  absent (url p)
  \/ exists pu, url p = Some pu
       /\ (is_substring pu u \/ compiles_and_matches pu u).

Definition data_rule (p : RequestPattern) (body : option string) : Prop :=
  absent (data p)
  \/ exists pd, data p = Some pd
       /\ has_body body
       /\ (is_substring pd (JSON_stringify (str body))
           \/ compiles_and_matches pd (JSON_stringify (str body))).

Definition three_part_rule (p : RequestPattern) (request : Request) : Prop :=
  method_rule p (req_method request)
  /\ url_rule p (req_url request)
  /\ data_rule p (post request).

End Rule.

(** The entry at index [i] is the earliest one whose pattern matches. *)
Definition earliest_match (host : Host) (s : State) (request : Request)
    (i : nat) (e : Entry.t) : Prop :=
  _mapping s !! i = Some e
  /\ matched host s e request
  /\ forall j e', (j < i)%nat -> _mapping s !! j = Some e' -> ~ matched host s e' request.

(** A property is absent when the object does not have it. *)
Definition missing (property : option string) : Prop := property = None.

(** A property the source treats as absent: missing, or the empty string. *)
Definition missing_or_empty (property : option string) : Prop :=
  property = None \/ property = Some EmptyString.

(** The request carries a body: [post] is there and is not empty. *)
Definition present (body : option string) : Prop :=
  exists b, body = Some b /\ b <> EmptyString.

(** The port test of [start], as a function of the parsed port. *)
Definition in_range (thisPort : jsnum) : bool :=
  negb (num_gt thisPort (JInt 49151) || num_lt thisPort (JInt 1025)).

(** The port [start] tests: the number itself, or what [parseInt] reads
    in the trimmed string. *)
Definition reads_as (port : jsval) (thisPort : jsnum) : Prop :=
  port = JNum thisPort \/ exists p, port = JStr p /\ parseInt (trim p) = thisPort.

(** A plan simulates a timeout: [isTimeout] is [true], or a string equal
    to [true] up to case. *)
Definition timeout_plan (plan : ResponsePlan) : Prop :=
  isTimeout plan = JBool true
  \/ exists t, isTimeout plan = JStr t /\ eq_ignore_case t "true".

(** The plan with another [responseTime]. *)
Definition with_responseTime (v : jsval) (plan : ResponsePlan) : ResponsePlan :=
  {| status := status plan;
     headers := headers plan;
     responseTime := v;
     isTimeout := isTimeout plan;
     responseText := responseText plan;
     responseFile := responseFile plan |}.

(** ** Examples: the mappings of the usage notes *)

(** [{status: 200, responseText: ...}]. *)
Definition mock_response_1 : ResponsePlan :=
  {| status := JNum (JInt 200); headers := JUndefined; responseTime := JUndefined;
     isTimeout := JUndefined; responseText := JStr "Mock Response 1";
     responseFile := JUndefined |}.

(** [{status: 200, responseTime: 5000, responseText: ...}]. *)
Definition mock_response_2 : ResponsePlan :=
  {| status := JNum (JInt 200); headers := JUndefined; responseTime := JNum (JInt 5000);
     isTimeout := JUndefined; responseText := JStr "Mock Response 2";
     responseFile := JUndefined |}.

(** [{isTimeout: true, responseTime: 5000}]. *)
Definition hang : ResponsePlan :=
  {| status := JUndefined; headers := JUndefined; responseTime := JNum (JInt 5000);
     isTimeout := JBool true; responseText := JUndefined; responseFile := JUndefined |}.

(** [{responseFile: ...}]. *)
Definition from_file : ResponsePlan :=
  {| status := JUndefined; headers := JUndefined; responseTime := JUndefined;
     isTimeout := JUndefined; responseText := JUndefined;
     responseFile := JStr "./mytest.txt" |}.

Definition line_feed : ascii := ascii_of_nat 10.

(** The string [a], line feed, [b]. *)
Definition two_lines : string := String "a" (String line_feed "b").

(** The request objects of the examples, by address. *)
Definition example_objects (r : ref) : RequestPattern :=
  match r with
  | 0%nat => {| method := Some "GET"; url := Some "ajax_info_1"; data := None |}
  | 1%nat => {| method := Some "POST"; url := Some "ajax_info_2";
                data := Some "member_id=1" |}
  | 2%nat => empty_object
  | 3%nat => {| method := None; url := Some "("; data := None |}
  | 4%nat => {| method := None; url := Some "/b"; data := None |}
  | 5%nat => {| method := Some "GET"; url := Some "/a"; data := Some EmptyString |}
  | 6%nat => {| method := None; url := None; data := Some two_lines |}
  | _ => empty_object
  end.

Definition entry (req : ref) (resp : ResponsePlan) : Entry.t :=
  {| Entry.request := req; Entry.response := resp |}.

(** The state after the two mappings of scenarios A and B are defined. *)
Definition scenario : State :=
  run example_host
    [call_when 0%nat; call_response mock_response_1;
     call_when 1%nat; call_response mock_response_2]
    (initial example_objects).

(** The state after mappings for the url patterns [(] and [/b] are
    defined, in this order. *)
Definition unbalanced_first : State :=
  run example_host
    [call_when 3%nat; call_response mock_response_1;
     call_when 4%nat; call_response mock_response_2]
    (initial example_objects).

(** The state after [when] on the first request object, with no
    [response] yet, on top of the two mappings. *)
Definition half_configured : State := when 0%nat scenario.

(** The state after [when] on the request object without properties,
    with no [response] yet, on top of the two mappings. *)
Definition empty_submitted : State := when 2%nat scenario.

(** The state after one mapping with the plan that hangs, and after one
    with the plan served from a file. *)
Definition hanging : State :=
  run example_host [call_when 0%nat; call_response hang] (initial example_objects).

Definition served_from_file : State :=
  run example_host [call_when 0%nat; call_response from_file] (initial example_objects).

Definition get_ajax_info_1 : Request :=
  {| req_method := "GET"; req_url := "/demo/ajax_info_1.txt"; post := None |}.

Definition post_ajax_info_2 : Request :=
  {| req_method := "POST"; req_url := "/demo/ajax_info_2.txt";
     post := Some "member_id=1&name=x" |}.

Definition get_b : Request :=
  {| req_method := "GET"; req_url := "/b"; post := None |}.

Definition get_a : Request :=
  {| req_method := "GET"; req_url := "/a"; post := None |}.

(** ** The whole interface, and what its calls keep *)

(** A call of one of the functions the module exports.  A call that
    throws leaves the state it reached, and the script may go on. *)
Inductive op :=
| op_start (port : jsval)
| op_close
| op_when (req : ref)
| op_response (resp : ResponsePlan)
| op_reset.

Definition exec (host : Host) (s : State) (o : op) : State :=
  match o with
  | op_start port => fst (start host port s)
  | op_close => close host s
  | op_when req => when req s
  | op_response resp => fst (response host resp s)
  | op_reset => reset host s
  end.

Definition exec_all (host : Host) (ops : list op) (s : State) : State :=
  foldl (exec host) s ops.

(** The server is stopped: not up, no port, no server object. *)
Definition stopped (s : State) : Prop :=
  _isServerUp s = false /\ _port s = JInt 0 /\ server s = false.

(** What holds of the port and of the server object in every state the
    calls can reach. *)
Definition lifecycle_ok (s : State) : Prop :=
  (_port s = JInt 0 \/ in_range (_port s) = true)
  /\ (_isServerUp s = true -> server s = true /\ in_range (_port s) = true).

(** Every entry of the mapping refers to an object with a property. *)
Definition entries_have_keys (s : State) : Prop :=
  Forall (fun e => keys_length (pattern_of s e) <> 0%nat) (_mapping s).

(** The define-then-attach calls for a list of patterns and plans. *)
Definition define (pairs : list (ref * ResponsePlan)) : list call :=
  flat_map (fun rp => [call_when (fst rp); call_response (snd rp)]) pairs.

(** Whether every character of a string passes a test. *)
Fixpoint all_chars (f : ascii -> bool) (s : string) : bool :=
  match s with
  | EmptyString => true
  | String c s' => f c && all_chars f s'
  end.

(** A character [JSON.stringify] writes as it is, or a double quote. *)
Definition json_plain (c : ascii) : bool :=
  negb (Ascii.eqb c backslash) && (32 <=? nat_of_ascii c)%nat.

(** The number of double quotes of a string. *)
Fixpoint quotes (s : string) : nat :=
  match s with
  | EmptyString => 0
  | String c s' => ((if Ascii.eqb c dquote then 1 else 0) + quotes s')%nat
  end.

(** The pattern without its data. *)
Definition without_data (p : RequestPattern) : RequestPattern :=
  {| method := method p; url := url p; data := None |}.

(** The pattern without its url. *)
Definition without_url (p : RequestPattern) : RequestPattern :=
  {| method := method p; url := None; data := data p |}.

(** What [when] makes of an object. *)
Definition escaped (p : RequestPattern) : RequestPattern :=
  if truthy_str (data p)
  then {| method := method p; url := url p;
          data := Some (escape_quotes (str (data p))) |}
  else p.

(** Whether the filter redirects a request for a pattern. *)
Definition redirects (host : Host) (p : RequestPattern) (requestData : RequestData)
  : bool :=
  match changeUrl_cond host p requestData with
  | Normal true => true
  | _ => false
  end.

(** The condition of the filter evaluates to a boolean. *)
Definition evaluates (host : Host) (p : RequestPattern) (requestData : RequestData)
  : Prop :=
  exists b, changeUrl_cond host p requestData = Normal b.

(** A string of decimal digits, and the number it denotes. *)
Definition digit_char (d : nat) : ascii := ascii_of_nat (48 + d).

Fixpoint digits_string (ds : list nat) : string :=
  match ds with
  | [] => EmptyString
  | d :: ds' => String (digit_char d) (digits_string ds')
  end.

Definition digits_value (ds : list nat) : Z :=
  fold_left (fun acc d => acc * 10 + Z.of_nat d) ds 0.

(** *** Examples for the whole interface *)

(** The server started on port 9001 after the two mappings of the
    scenarios are defined. *)
Definition running : State := fst (start example_host (JStr "9001") scenario).

(** The example host, under CasperJS with a handler already installed. *)
Definition casper_host : Host :=
  {| RegExp_test := RegExp_test example_host;
     fs_read := fs_read example_host;
     server_listen := server_listen example_host;
     isCasperInUsed := true;
     existing_is_function := true |}.

(** The server started under CasperJS on port 9001 after one mapping
    whose data is the two lines. *)
Definition two_lines_mapped : State :=
  fst (start casper_host (JStr "9001")
         (run casper_host [call_when 6%nat; call_response mock_response_1]
            (initial example_objects))).

(** A page posting the two lines, and the same request as the listener
    receives it once redirected. *)
Definition page_two_lines : RequestData :=
  {| rd_method := "POST"; rd_url := "/x"; postData := Some two_lines |}.

Definition post_two_lines : Request :=
  {| req_method := "POST"; req_url := "/x"; post := Some two_lines |}.

(** A page posting to the second url of the scenarios, with and without
    post data. *)
Definition page_post : RequestData :=
  {| rd_method := "POST"; rd_url := "http://example.com/demo/ajax_info_2.txt";
     postData := Some "member_id=1&name=x" |}.

Definition page_post_empty : RequestData :=
  {| rd_method := "POST"; rd_url := "http://example.com/demo/ajax_info_2.txt";
     postData := None |}.

(** ** The earlier revision of the module

    The first module of the source file (lines 59-337): no validation
    of the port, no [close] in the interface, a [response] and a
    listener that only print where the later revision throws, and a
    filter that looks at the stored patterns alone. *)

Module Legacy.

(** The module-level variables; the port is kept as it was given. *)
Record State := {
  objects : ref -> RequestPattern;
  _mapping : list Entry.t;
  _port : jsval;
  _isServerUp : bool;
  _currentReq : option ref;
  onResourceRequested : hook
}.

Inductive hook_event :=
| call_existing
| request_changeUrl (u : string) (port : jsval).

Section Revision.

Variable host : Host.

(** [server.listen(_port, handler)], on a port of any type. *)
Variable listen : jsval -> bool.

Definition currentReq (s : State) : RequestPattern :=
  match _currentReq s with
  | Some r => objects s r
  | None => empty_object
  end.

(** [reset] (lines 235-242). *)
Definition reset (s : State) : State :=
  {| objects := objects s;
     _mapping := [];
     _port := _port s;
     _isServerUp := _isServerUp s;
     _currentReq := None;
     onResourceRequested :=
       if isCasperInUsed host then existing_hook else onResourceRequested s |}.

(** [when] (lines 200-206). *)
Definition when (req : ref) (s : State) : State :=
  let o := objects s req in
  let o' :=
    if truthy_str (data o)
    then {| method := method o; url := url o;
            data := Some (escape_quotes (str (data o))) |}
    else o in
  {| objects := <[req := o']> (objects s);
     _mapping := _mapping s;
     _port := _port s;
     _isServerUp := _isServerUp s;
     _currentReq := Some req;
     onResourceRequested := onResourceRequested s |}.

(** [_port === '0' || _port === 0]. *)
Definition port_is_0 (v : jsval) : bool :=
  match v with
  | JStr p => String.eqb p "0"
  | JNum n => num_eq n (JInt 0)
  | _ => false
  end.

(** [addToResourceRequestedEvent] (lines 249-295). *)
Definition addToResourceRequestedEvent (s : State) : State :=
  if (length (_mapping s) =? 0)%nat || port_is_0 (_port s) then s
  else if negb (isCasperInUsed host) then s
  else
    {| objects := objects s;
       _mapping := _mapping s;
       _port := _port s;
       _isServerUp := _isServerUp s;
       _currentReq := _currentReq s;
       onResourceRequested := bridge_hook |}.

(** [response] (lines 214-227): nothing is thrown. *)
Definition response (resp : ResponsePlan) (s : State) : State :=
  match _currentReq s with
  | None => s
  | Some req =>
      if (keys_length (objects s req) =? 0)%nat
      then s
      else
        let s1 :=
          {| objects := objects s;
             _mapping := _mapping s ++ [{| Entry.request := req; Entry.response := resp |}];
             _port := _port s;
             _isServerUp := _isServerUp s;
             _currentReq := _currentReq s;
             onResourceRequested := onResourceRequested s |} in
        let s2 := addToResourceRequestedEvent s1 in
        {| objects := objects s2;
           _mapping := _mapping s2;
           _port := _port s2;
           _isServerUp := _isServerUp s2;
           _currentReq := None;
           onResourceRequested := onResourceRequested s2 |}
  end.

(** [start] (lines 84-181). *)
Definition start (port : jsval) (s : State) : State :=
  let s0 :=
    {| objects := objects s;
       _mapping := _mapping s;
       _port := port;
       _isServerUp := _isServerUp s;
       _currentReq := _currentReq s;
       onResourceRequested := onResourceRequested s |} in
  if _isServerUp s0 then reset s0
  else
    let s1 := addToResourceRequestedEvent s0 in
    {| objects := objects s1;
       _mapping := _mapping s1;
       _port := _port s1;
       _isServerUp := listen (_port s1);
       _currentReq := _currentReq s1;
       onResourceRequested := onResourceRequested s1 |}.

(** The body of the [if] of the listener (lines 114-154). *)
Definition build_response (expReq : RequestPattern) (expResp : ResponsePlan)
    (request : Request) : list event :=
  let status_ := if truthy (status expResp) then status expResp else JNum (JInt 200) in
  let headers_ := if truthy (headers expResp) then headers expResp else JObj ∅ in
  [console_log (log_matched (req_url request) expReq);
   set_statusCode status_;
   set_headers headers_]
  ++
  if simulates_timeout expResp
  then [console_log (log_simulate_timeout (req_url request))]
  else
    let timeout :=
      match responseTime expResp with
      | JNum n => n
      | _ => JInt 0
      end in
    let '(logs, responseText_) :=
      if negb (isString (responseText expResp)) && truthy (responseFile expResp)
      then
        match fs_read host (responseFile expResp) with
        | Some content => ([], JStr content)
        | None => ([console_log (log_error (responseFile expResp))], responseText expResp)
        end
      else ([], responseText expResp) in
    let text :=
      match responseText_ with
      | JStr t => t
      | _ => EmptyString
      end in
    logs ++
    [setTimeout
       [response_write text;
        response_close;
        console_log (log_served (req_url request) timeout status_ text headers_)]
       timeout].

(** The loop of the listener (lines 105-157). *)
Fixpoint match_loop (s : State) (entries : list Entry.t) (request : Request)
  : list event * completion bool :=
  match entries with
  | [] => ([], Normal false)
  | e :: rest =>
      let expReq := objects s (Entry.request e) in
      match listen_cond host expReq request with
      | Throw x => ([], Throw x)
      | Normal true => (build_response expReq (Entry.response e) request, Normal true)
      | Normal false => match_loop s rest request
      end
  end.

(** The listener (lines 97-166): a pending pattern is reported on the
    console, and the request is served all the same. *)
Definition listen_handler (s : State) (request : Request)
  : list event * completion unit :=
  let warning :=
    if negb (keys_length (currentReq s) =? 0)%nat
    then [console_log log_pending_when]
    else [] in
  match match_loop s (_mapping s) request with
  | (evs, Throw x) => (warning ++ evs, Throw x)
  | (evs, Normal true) => (warning ++ evs, Normal ())
  | (evs, Normal false) =>
      (warning ++ evs ++ [console_log (log_no_match (req_url request));
                          set_statusCode (JNum (JInt 404));
                          response_close],
       Normal ())
  end.

(** The filter (lines 262-290): the stored patterns, in order. *)
Fixpoint changeUrl_each (s : State) (entries : list Entry.t) (requestData : RequestData)
  : list hook_event * completion unit :=
  match entries with
  | [] => ([], Normal ())
  | e :: rest =>
      match changeUrl_cond host (objects s (Entry.request e)) requestData with
      | Throw x => ([], Throw x)
      | Normal b =>
          let '(evs, c) := changeUrl_each s rest requestData in
          ((if b then [request_changeUrl (rd_url requestData) (_port s)] else []) ++ evs, c)
      end
  end.

Definition bridge_filter (s : State) (requestData : RequestData)
  : list hook_event * completion unit :=
  let before := if existing_is_function host then [call_existing] else [] in
  let '(evs, c) := changeUrl_each s (_mapping s) requestData in
  (before ++ evs, c).

End Revision.

End Legacy.

(** The state of the earlier revision that holds the same store,
    pending pattern and filter, for a port given as [port]. *)
Definition legacy_view (port : jsval) (s : State) : Legacy.State :=
  {| Legacy.objects := objects s;
     Legacy._mapping := _mapping s;
     Legacy._port := port;
     Legacy._isServerUp := _isServerUp s;
     Legacy._currentReq := _currentReq s;
     Legacy.onResourceRequested := onResourceRequested s |}.

(** The state with the pending slot emptied. *)
Definition clear_pending (s : State) : State :=
  {| objects := objects s;
     _mapping := _mapping s;
     _port := _port s;
     _isServerUp := _isServerUp s;
     _currentReq := None;
     server := server s;
     onResourceRequested := onResourceRequested s |}.

(** The log line the later revision writes before it reads a file. *)
Definition is_file_log (ev : event) : bool :=
  match ev with
  | console_log (log_served_from_file _ _) => true
  | _ => false
  end.

Definition without_file_log (trace : list event) : list event :=
  List.filter (fun ev => negb (is_file_log ev)) trace.

(** ** Properties of the string primitives *)

Section Strings.

Lemma append_nil_l (s : string) : EmptyString +:+ s = s.
Proof. reflexivity. Qed.

Lemma append_cons (c : ascii) (a b : string) :
  String c a +:+ b = String c (a +:+ b).
Proof. reflexivity. Qed.

Lemma append_nil_r (s : string) : s +:+ EmptyString = s.
Proof.
  induction s as [|c s IH]; [reflexivity|].
  now rewrite append_cons, IH.
Qed.

Lemma append_assoc (a b c : string) : (a +:+ b) +:+ c = a +:+ (b +:+ c).
Proof.
  induction a as [|x a IH]; [reflexivity|].
  now rewrite !append_cons, IH.
Qed.

Lemma prefix_nil (s : string) : String.prefix EmptyString s = true.
Proof. destruct s; reflexivity. Qed.

Lemma prefix_app (p s : string) :
  String.prefix p s = true <-> exists rest, s = p +:+ rest.
Proof.
  revert s. induction p as [|c p IH]; intros s.
  - rewrite prefix_nil. split; [intros _; now exists s | reflexivity].
  - destruct s as [|d s]; simpl.
    + split; [discriminate | intros [rest H]; discriminate].
    + destruct (ascii_dec c d) as [->|Hne].
      * rewrite IH. split; intros [rest H]; exists rest.
        -- now rewrite append_cons, H.
        -- rewrite append_cons in H. now inversion H.
      * split; [discriminate|].
        intros [rest H]. rewrite append_cons in H. inversion H. congruence.
Qed.

Lemma is_substring_cons (p : string) (c : ascii) (s : string) :
  is_substring p (String c s) <->
  String.prefix p (String c s) = true \/ is_substring p s.
Proof.
  split.
  - intros [[|x before] [after H]].
    + left. apply prefix_app. now exists after.
    + right. rewrite append_cons in H. inversion H. now exists before, after.
  - intros [H | [before [after H]]].
    + apply prefix_app in H as [rest H]. exists EmptyString, rest. exact H.
    + exists (String c before), after. now rewrite append_cons, H.
Qed.

Lemma is_substring_nil (p : string) :
  is_substring p EmptyString <-> String.prefix p EmptyString = true.
Proof.
  split.
  - intros [[|x before] [after H]]; [|discriminate].
    rewrite append_nil_l in H. destruct p; [reflexivity | discriminate].
  - intros H. apply prefix_app in H as [rest H]. now exists EmptyString, rest.
Qed.

Lemma indexOf_from_found (p s : string) (i : Z) :
  0 <= i -> (0 <= indexOf_from i s p <-> is_substring p s).
Proof.
  revert i. induction s as [|c s IH]; intros i Hi.
  - rewrite is_substring_nil.
    destruct p; simpl; split; intros H;
      [reflexivity | exact Hi | lia | discriminate].
  - rewrite is_substring_cons.
    change (indexOf_from i (String c s) p)
      with (if String.prefix p (String c s) then i else indexOf_from (i + 1) s p).
    destruct (String.prefix p (String c s)).
    + split; auto.
    + rewrite IH by lia. split; [auto | intros [H|H]; [discriminate | exact H]].
Qed.

(** [s.indexOf(p) >= 0] says that [p] occurs in [s]. *)
Lemma indexOf_is_substring (s p : string) :
  (0 <=? indexOf s p) = true <-> is_substring p s.
Proof.
  rewrite Z.leb_le. apply indexOf_from_found. lia.
Qed.

Lemma indexOf_empty (s : string) : (0 <=? indexOf s EmptyString) = true.
Proof.
  apply indexOf_is_substring. exists EmptyString, s. reflexivity.
Qed.

Lemma lower_upper_ascii (c : ascii) : lower_ascii (upper_ascii c) = lower_ascii c.
Proof. destruct c as [[] [] [] [] [] [] [] []]; reflexivity. Qed.

Lemma upper_lower_ascii (c : ascii) : upper_ascii (lower_ascii c) = upper_ascii c.
Proof. destruct c as [[] [] [] [] [] [] [] []]; reflexivity. Qed.

Lemma toLowerCase_toUpperCase (s : string) :
  toLowerCase (toUpperCase s) = toLowerCase s.
Proof.
  induction s as [|c s IH]; simpl; [reflexivity|].
  now rewrite lower_upper_ascii, IH.
Qed.

Lemma toUpperCase_toLowerCase (s : string) :
  toUpperCase (toLowerCase s) = toUpperCase s.
Proof.
  induction s as [|c s IH]; simpl; [reflexivity|].
  now rewrite upper_lower_ascii, IH.
Qed.

(** Against an upper-case string, comparing the upper-cased pattern is
    comparing without regard to case. *)
Lemma toUpperCase_eq_ignore_case (a m : string) :
  is_upper m ->
  String.eqb (toUpperCase a) m = true <-> eq_ignore_case a m.
Proof.
  unfold is_upper, eq_ignore_case. intros Hm. rewrite String.eqb_eq. split.
  - intros <-. now rewrite toLowerCase_toUpperCase.
  - intros H. rewrite <- Hm, <- toUpperCase_toLowerCase, H.
    apply toUpperCase_toLowerCase.
Qed.

Lemma truthy_str_false (o : option string) :
  truthy_str o = false <-> missing_or_empty o.
Proof.
  unfold missing_or_empty. destruct o as [s|]; simpl.
  - rewrite negb_false_iff, String.eqb_eq. split.
    + intros ->. now right.
    + intros [H|H]; [discriminate | now inversion H].
  - split; [now left | reflexivity].
Qed.

Lemma truthy_str_true (o : option string) :
  truthy_str o = true <-> present o.
Proof.
  unfold present. destruct o as [s|]; simpl.
  - rewrite negb_true_iff, String.eqb_neq. split.
    + intros H. now exists s.
    + intros [b [Hb Hne]]. now inversion Hb; subst.
  - split; [discriminate | intros [b [Hb _]]; discriminate].
Qed.

End Strings.

(** ** The match condition of the listener *)

Section Condition.

Variable host : Host.

Lemma js_and_true (a b : completion bool) :
  a &&& b = Normal true <-> a = Normal true /\ b = Normal true.
Proof.
  destruct a as [[|]|x]; simpl; split.
  - intros H. now split.
  - intros [_ H]. exact H.
  - discriminate.
  - intros [H _]. discriminate.
  - discriminate.
  - intros [H _]. discriminate.
Qed.

Lemma test_true (re subject : string) :
  test host re subject = Normal true <-> compiles_and_matches host re subject.
Proof.
  unfold test, compiles_and_matches.
  destruct (RegExp_test host re subject) as [[|]|]; split; congruence.
Qed.

Lemma eqb_empty_false (v : string) :
  String.eqb v EmptyString = false <-> v <> EmptyString.
Proof. apply String.eqb_neq. Qed.

Lemma method_part (p : RequestPattern) (m : string) :
  is_upper m ->
  Normal (negb (truthy_str (method p)))
    ||| Normal (String.eqb (toUpperCase (str (method p))) m) = Normal true
  <-> method_rule missing_or_empty p m.
Proof.
  intros Hm. unfold method_rule, missing_or_empty.
  destruct (method p) as [pm|]; simpl; [|split; [now left; left | reflexivity]].
  destruct (String.eqb pm EmptyString) eqn:He; simpl.
  - apply String.eqb_eq in He. subst pm.
    split; [intros _; left; now right | reflexivity].
  - split.
    + intros H. right. exists pm. split; [reflexivity|].
      apply toUpperCase_eq_ignore_case; [exact Hm | congruence].
    + intros [[H|H] | [pm' [Hp Hc]]].
      * discriminate.
      * inversion H. subst pm. discriminate.
      * inversion Hp. subst pm'.
        f_equal. now apply toUpperCase_eq_ignore_case.
Qed.

Lemma url_part (p : RequestPattern) (u : string) :
  Normal (negb (truthy_str (url p)))
    ||| Normal (0 <=? indexOf u (str (url p)))
    ||| test host (str (url p)) u = Normal true
  <-> url_rule host missing_or_empty p u.
Proof.
  unfold url_rule, missing_or_empty.
  destruct (url p) as [pu|]; simpl; [|split; [now left; left | reflexivity]].
  destruct (String.eqb pu EmptyString) eqn:He; simpl.
  - apply String.eqb_eq in He. subst pu.
    split; [intros _; left; now right | reflexivity].
  - destruct (0 <=? indexOf u pu) eqn:Hi; simpl.
    + split; [|reflexivity]. intros _. right. exists pu.
      split; [reflexivity|]. left. now apply indexOf_is_substring.
    + rewrite test_true. split.
      * intros H. right. exists pu. split; [reflexivity | now right].
      * intros [[H|H] | [pu' [Hp Hc]]].
        -- discriminate.
        -- inversion H. subst pu. discriminate.
        -- inversion Hp. subst pu'. destruct Hc as [Hc|Hc]; [|exact Hc].
           apply indexOf_is_substring in Hc. congruence.
Qed.

Lemma data_part (p : RequestPattern) (body : option string) :
  Normal (negb (truthy_str (data p)))
    ||| (Normal (truthy_str body)
           &&& Normal (0 <=? indexOf (JSON_stringify (str body)) (str (data p))))
    ||| (Normal (truthy_str body)
           &&& test host (str (data p)) (JSON_stringify (str body))) = Normal true
  <-> data_rule host missing_or_empty present p body.
Proof.
  unfold data_rule, missing_or_empty.
  destruct (data p) as [pd|]; simpl; [|split; [now left; left | reflexivity]].
  destruct (String.eqb pd EmptyString) eqn:He; simpl.
  - apply String.eqb_eq in He. subst pd.
    split; [intros _; left; now right | reflexivity].
  - destruct (truthy_str body) eqn:Hb; simpl.
    + destruct (0 <=? indexOf (JSON_stringify (str body)) pd) eqn:Hi; simpl.
      * split; [|reflexivity]. intros _. right. exists pd.
        split; [reflexivity|]. split; [now apply truthy_str_true|].
        left. now apply indexOf_is_substring.
      * rewrite test_true. split.
        -- intros H. right. exists pd. split; [reflexivity|].
           split; [now apply truthy_str_true | now right].
        -- intros [[H|H] | [pd' [Hp [_ Hc]]]].
           ++ discriminate.
           ++ inversion H. subst pd. discriminate.
           ++ inversion Hp. subst pd'. destruct Hc as [Hc|Hc]; [|exact Hc].
              apply indexOf_is_substring in Hc. congruence.
    + split; [discriminate|].
      intros [[H|H] | [pd' [_ [Hp _]]]].
      * discriminate.
      * inversion H. subst pd. discriminate.
      * apply truthy_str_true in Hp. congruence.
Qed.

End Condition.

(** ** The listener *)

Section Listener.

Variable host : Host.

Lemma pattern_of_with_mapping (s : State) (entries : list Entry.t) (e : Entry.t) :
  pattern_of (with_mapping s entries) e = pattern_of s e.
Proof. reflexivity. Qed.

Lemma match_loop_with_mapping (s : State) (m entries : list Entry.t) (request : Request) :
  match_loop host (with_mapping s m) entries request = match_loop host s entries request.
Proof. induction entries as [|e rest IH]; simpl; [reflexivity | now rewrite IH]. Qed.

(** The loop stops at the first entry it takes, whatever follows it. *)
Lemma match_loop_first (s : State) (before after : list Entry.t) (e : Entry.t)
    (request : Request) :
  Forall (fun e' => listen_cond host (pattern_of s e') request = Normal false) before ->
  listen_cond host (pattern_of s e) request = Normal true ->
  match_loop host s (before ++ e :: after) request
  = (build_response host (pattern_of s e) (Entry.response e) request, Normal true).
Proof.
  intros Hbefore He. induction Hbefore as [|e' before He' _ IH]; simpl.
  - unfold pattern_of in He. now rewrite He.
  - unfold pattern_of in He'. now rewrite He'.
Qed.

(** The loop over entries none of which is taken. *)
Lemma match_loop_none (s : State) (entries : list Entry.t) (request : Request) :
  Forall (fun e' => listen_cond host (pattern_of s e') request = Normal false) entries ->
  match_loop host s entries request = ([], Normal false).
Proof.
  induction 1 as [|e' rest He' _ IH]; simpl; [reflexivity|].
  unfold pattern_of in He'. now rewrite He'.
Qed.

Lemma first_match_before (s : State) (request : Request) (i : nat) (e : Entry.t) :
  first_match host s request i e ->
  Forall (fun e' => listen_cond host (pattern_of s e') request = Normal false)
         (take i (_mapping s)).
Proof.
  intros (_ & _ & Hbefore). apply Forall_lookup. intros j e' Hj.
  apply lookup_take_Some in Hj as [Hj Hlt]. now apply (Hbefore j).
Qed.

Lemma listen_handler_first_match (s : State) (request : Request) (i : nat)
    (e : Entry.t) (later : list Entry.t) :
  no_pending s ->
  first_match host s request i e ->
  listen_handler host (with_mapping s (take i (_mapping s) ++ e :: later)) request
  = (build_response host (pattern_of s e) (Entry.response e) request, Normal ()).
Proof.
  intros Hp Hf. unfold listen_handler.
  change (currentReq (with_mapping s (take i (_mapping s) ++ e :: later)))
    with (currentReq s).
  rewrite Hp. simpl. rewrite match_loop_with_mapping.
  rewrite (match_loop_first s _ later e request);
    [reflexivity | now apply (first_match_before s request i e) | apply Hf].
Qed.

Lemma listen_handler_pending (s : State) (request : Request) :
  ~ no_pending s ->
  listen_handler host s request
  = ([console_log log_pending_when; response_write pending_when_msg; response_close],
     Throw (Thrown pending_when_msg)).
Proof.
  unfold no_pending, listen_handler. intros H.
  destruct (Nat.eqb_spec (keys_length (currentReq s)) 0); [contradiction | reflexivity].
Qed.

(** With nothing pending and no entry taken, the request is answered
    with 404. *)
Lemma listen_handler_no_match (s : State) (request : Request) :
  no_pending s ->
  Forall (fun e' => listen_cond host (pattern_of s e') request = Normal false)
         (_mapping s) ->
  listen_handler host s request
  = ([console_log (log_no_match (req_url request));
      set_statusCode (JNum (JInt 404));
      response_close],
     Normal ()).
Proof.
  intros Hp Hall. unfold listen_handler. rewrite Hp. simpl.
  now rewrite (match_loop_none s (_mapping s) request Hall).
Qed.

(** With nothing pending, a throw in the evaluation of an entry, the
    entries before it not being taken, is the outcome of the listener:
    nothing is answered. *)
Lemma listen_handler_throws (s : State) (request : Request)
    (before after : list Entry.t) (e : Entry.t) (x : exn) :
  no_pending s ->
  _mapping s = before ++ e :: after ->
  Forall (fun e' => listen_cond host (pattern_of s e') request = Normal false) before ->
  listen_cond host (pattern_of s e) request = Throw x ->
  listen_handler host s request = ([], Throw x).
Proof.
  intros Hp Hm Hbefore He. unfold listen_handler. rewrite Hp, Hm. simpl.
  assert (H : match_loop host s (before ++ e :: after) request = ([], Throw x)).
  { clear Hm. induction Hbefore as [|e' before' He' _ IH]; simpl.
    - unfold pattern_of in He. now rewrite He.
    - unfold pattern_of in He'. now rewrite He'. }
  now rewrite H.
Qed.

Lemma with_mapping_same (s : State) : with_mapping s (_mapping s) = s.
Proof. now destruct s. Qed.

Lemma listen_handler_takes (s : State) (request : Request) (i : nat) (e : Entry.t) :
  no_pending s ->
  first_match host s request i e ->
  listen_handler host s request
  = (build_response host (pattern_of s e) (Entry.response e) request, Normal ()).
Proof.
  intros Hp Hf.
  rewrite <- (listen_handler_first_match s request i e (drop (S i) (_mapping s))) by assumption.
  destruct Hf as (Hi & _). now rewrite (take_drop_middle _ _ _ Hi), with_mapping_same.
Qed.

(** What the response to a matched entry never contains: the log line
    of the branch for a request that matched nothing. *)
Lemma build_response_not_no_match (q : RequestPattern) (plan : ResponsePlan)
    (request : Request) (u : string) :
  ~ In (console_log (log_no_match u)) (build_response host q plan request).
Proof.
  unfold build_response. intros H.
  apply in_app_or in H as [H|H].
  - simpl in H. intuition discriminate.
  - destruct (simulates_timeout plan).
    + simpl in H. intuition discriminate.
    + destruct (negb (isString (responseText plan)) && truthy (responseFile plan));
        [destruct (fs_read host (responseFile plan))|];
        simpl in H; intuition discriminate.
Qed.

Lemma simulates_timeout_true (plan : ResponsePlan) :
  simulates_timeout plan = true <->
  isTimeout plan = JBool true
  \/ exists t, isTimeout plan = JStr t /\ eq_ignore_case t "true".
Proof.
  unfold simulates_timeout, eq_ignore_case.
  destruct (isTimeout plan) as [| |[|]| | t |]; simpl;
    try (split; [discriminate | intros [H | (t' & H & _)]; discriminate]).
  - split; [intros _; now left | reflexivity].
  - split.
    + intros H. right. exists t. now apply String.eqb_eq in H.
    + intros [H | (t' & H & Ht)]; [discriminate|].
      inversion H. subst t'. now apply String.eqb_eq.
Qed.

(** The response of a plan that simulates a timeout: the status and
    the headers are set, and nothing else is done to the connection. *)
Lemma build_response_timeout (q : RequestPattern) (plan : ResponsePlan)
    (request : Request) :
  simulates_timeout plan = true ->
  build_response host q plan request
  = [console_log (log_matched (req_url request) q);
     set_statusCode (if truthy (status plan) then status plan else JNum (JInt 200));
     set_headers (if truthy (headers plan) then headers plan else JObj ∅);
     console_log (log_simulate_timeout (req_url request))].
Proof. unfold build_response. now intros ->. Qed.

(** The body a plan resolves to, the log lines of the resolution, and
    the shape of the response of a plan that does not simulate a
    timeout. *)
Lemma build_response_timed (q : RequestPattern) (plan : ResponsePlan)
    (request : Request) :
  simulates_timeout plan = false ->
  exists body logs,
    build_response host q plan request
    = [console_log (log_matched (req_url request) q);
       set_statusCode (if truthy (status plan) then status plan else JNum (JInt 200));
       set_headers (if truthy (headers plan) then headers plan else JObj ∅)]
      ++ logs
      ++ [setTimeout
            [response_write body;
             response_close;
             console_log
               (log_served (req_url request)
                  (match responseTime plan with JNum n => n | _ => JInt 0 end)
                  (if truthy (status plan) then status plan else JNum (JInt 200))
                  body
                  (if truthy (headers plan) then headers plan else JObj ∅))]
            (match responseTime plan with JNum n => n | _ => JInt 0 end)]
    /\ (forall t, responseText plan = JStr t -> body = t /\ logs = [])
    /\ (isString (responseText plan) = false ->
        truthy (responseFile plan) = true ->
        match fs_read host (responseFile plan) with
        | Some content => body = content
        | None =>
            body = EmptyString
            /\ In (console_log (log_error (responseFile plan))) logs
        end)
    /\ (isString (responseText plan) = false ->
        truthy (responseFile plan) = false ->
        body = EmptyString /\ logs = []).
Proof.
  intros Ht. unfold build_response. rewrite Ht.
  destruct (negb (isString (responseText plan)) && truthy (responseFile plan)) eqn:Hf.
  - apply andb_true_iff in Hf as [Hs Hfile]. apply negb_true_iff in Hs.
    destruct (fs_read host (responseFile plan)) as [content|] eqn:Hr.
    + eexists _, _. split; [reflexivity|]. split; [|split].
      * intros t Hx. rewrite Hx in Hs. discriminate.
      * intros _ _. reflexivity.
      * intros _ Hx. congruence.
    + exists EmptyString. eexists. split; [|split; [|split]].
      * destruct (responseText plan); try discriminate; reflexivity.
      * intros t Hx. rewrite Hx in Hs. discriminate.
      * intros _ _. split; [reflexivity|]. simpl. now right; left.
      * intros _ Hx. congruence.
  - exists (match responseText plan with JStr t => t | _ => EmptyString end), [].
    split; [reflexivity|]. split; [|split].
    + intros t Hx. now rewrite Hx.
    + intros Hs Hx. rewrite Hs, Hx in Hf. discriminate.
    + intros Hs _. destruct (responseText plan); try discriminate; now split.
Qed.

End Listener.

(** ** Configuration calls *)

Section Configuration.

Variable host : Host.

Lemma mapping_when (req : ref) (s : State) : _mapping (when req s) = _mapping s.
Proof. reflexivity. Qed.

Lemma currentReq_when (req : ref) (s : State) : _currentReq (when req s) = Some req.
Proof. reflexivity. Qed.

(** [when] changes the text of [data], never which properties an object has. *)
Lemma keys_length_when (req r : ref) (s : State) :
  keys_length (objects (when req s) r) = keys_length (objects s r).
Proof.
  unfold when; simpl. destruct (decide (req = r)) as [->|Hne].
  - rewrite fn_lookup_insert.
    destruct (objects s r) as [m u [d|]]; simpl; [|reflexivity].
    now destruct (negb (String.eqb d EmptyString)).
  - now rewrite fn_lookup_insert_ne.
Qed.

Lemma mapping_addToResourceRequestedEvent (s : State) :
  _mapping (addToResourceRequestedEvent host s) = _mapping s.
Proof.
  unfold addToResourceRequestedEvent.
  destruct (num_eq (_port s) (JInt 0)); [reflexivity|].
  now destruct (negb (isCasperInUsed host)).
Qed.

(** [response] with something pending. *)
Lemma response_pending (resp : ResponsePlan) (s : State) (req : ref) :
  _currentReq s = Some req ->
  keys_length (objects s req) <> 0%nat ->
  exists s',
    response host resp s = (s', Normal ())
    /\ _mapping s' = _mapping s ++ [{| Entry.request := req; Entry.response := resp |}]
    /\ _currentReq s' = None
    /\ objects s' = objects s.
Proof.
  intros Hc Hk. unfold response. rewrite Hc.
  destruct (keys_length (objects s req) =? 0)%nat eqn:E;
    [apply Nat.eqb_eq in E; contradiction|].
  eexists. split; [reflexivity|]. simpl.
  rewrite mapping_addToResourceRequestedEvent. simpl. repeat split.
  unfold addToResourceRequestedEvent; simpl.
  destruct (num_eq (_port s) (JInt 0)); [reflexivity|].
  now destruct (negb (isCasperInUsed host)).
Qed.

(** [response] with nothing pending. *)
Lemma response_not_pending (resp : ResponsePlan) (s : State) :
  no_pending s -> response host resp s = (s, Throw (Thrown no_when_msg)).
Proof.
  unfold no_pending, currentReq, response. intros H.
  destruct (_currentReq s) as [req|]; [|reflexivity].
  now rewrite H.
Qed.

Lemma pending_has_ref (s : State) :
  ~ no_pending s ->
  exists req, _currentReq s = Some req /\ keys_length (objects s req) <> 0%nat.
Proof.
  unfold no_pending, currentReq. intros H.
  destruct (_currentReq s) as [req|]; [now exists req | now elim H].
Qed.

Lemma no_pending_reset (s : State) : no_pending (reset host s).
Proof. reflexivity. Qed.

Lemma in_range_JInt (z : Z) : in_range (JInt z) = true <-> 1025 <= z <= 49151.
Proof. unfold in_range; simpl. lia. Qed.

(** NaN passes the test: both comparisons are false. *)
Lemma in_range_JNaN : in_range JNaN = true.
Proof. reflexivity. Qed.

Lemma if_same_state (b : bool) (s : State) (c1 c2 : completion unit) :
  (if b then (s, c1) else (s, c2)) = (s, if b then c1 else c2).
Proof. now destruct b. Qed.

Lemma addToResourceRequestedEvent_keeps (s : State) :
  let s' := addToResourceRequestedEvent host s in
  objects s' = objects s /\ _mapping s' = _mapping s /\ _port s' = _port s
  /\ _isServerUp s' = _isServerUp s /\ _currentReq s' = _currentReq s
  /\ server s' = server s.
Proof.
  unfold addToResourceRequestedEvent.
  destruct (num_eq (_port s) (JInt 0)); [now repeat split|].
  destruct (negb (isCasperInUsed host)); now repeat split.
Qed.

(** [start] on a value that is neither a string nor a number. *)
Lemma start_rejects_other_types (port : jsval) (s : State) :
  isString port = false ->
  isNumber port = false ->
  start host port s = (s, Throw (ThrownAbout invalid_port_msg port)).
Proof. destruct port; simpl; intros; try discriminate; reflexivity. Qed.

(** [start] on a port that fails the range test. *)
Lemma start_rejects_out_of_range (port : jsval) (thisPort : jsnum) (s : State) :
  reads_as port thisPort ->
  in_range thisPort = false ->
  start host port s = (s, Throw (ThrownAbout out_of_range_msg port)).
Proof.
  unfold in_range. intros Hr Hi. apply negb_false_iff in Hi.
  destruct Hr as [-> | (p & -> & Hp)]; unfold start; [|rewrite Hp]; now rewrite Hi.
Qed.

(** [start] from a stopped server, on a port that passes the range
    test: the port is stored and handed to [server.listen], and the
    server is up when the port could be bound. *)
Lemma start_binds (port : jsval) (thisPort : jsnum) (s : State) :
  reads_as port thisPort ->
  in_range thisPort = true ->
  _isServerUp s = false ->
  exists s',
    start host port s
    = (s', if server_listen host thisPort
           then Normal ()
           else Throw (Thrown not_started_msg))
    /\ _port s' = thisPort
    /\ server s' = true
    /\ isServerUp s' = server_listen host thisPort
    /\ _mapping s' = _mapping s.
Proof.
  unfold in_range. intros Hr Hi Hup. apply negb_true_iff in Hi.
  assert (Hstart :
    start host port s
    = let s3 :=
        addToResourceRequestedEvent host
          {| objects := objects s; _mapping := _mapping s; _port := thisPort;
             _isServerUp := _isServerUp s; _currentReq := _currentReq s;
             server := true; onResourceRequested := onResourceRequested s |} in
      let s4 :=
        {| objects := objects s3; _mapping := _mapping s3; _port := _port s3;
           _isServerUp := server_listen host thisPort;
           _currentReq := _currentReq s3; server := server s3;
           onResourceRequested := onResourceRequested s3 |} in
      if server_listen host thisPort
      then (s4, Normal ())
      else (s4, Throw (Thrown not_started_msg))).
  { destruct Hr as [-> | (p & -> & Hp)]; unfold start; [|rewrite Hp];
      rewrite Hi, Hup; simpl; rewrite ?Hup; reflexivity. }
  rewrite Hstart. clear Hstart. cbv zeta.
  match goal with
  | |- context [addToResourceRequestedEvent host ?s2] =>
      destruct (addToResourceRequestedEvent_keeps s2) as (_ & Hm & Hport & _ & _ & Hsrv)
  end.
  rewrite if_same_state. eexists. split; [reflexivity|].
  simpl. rewrite Hm, Hport, Hsrv. now repeat split.
Qed.

End Configuration.

(** ** The properties of the design document *)

(** *** Matching *)

(** C2, as amended.  For a request whose method is upper case, the
    listener takes an entry exactly when the three parts hold: (1) the
    method of the pattern is missing or empty, or equals the method of
    the request up to case; (2) the url of the pattern is missing or
    empty, or occurs in the url of the request, or compiles as a regular
    expression that matches it; (3) the data of the pattern is missing
    or empty, or the request has a body and the serialized body contains
    the data or is matched by it as a regular expression. *)
Theorem listen_cond_three_part_rule (host : Host) (p : RequestPattern)
    (request : Request) :
  is_upper (req_method request) ->
  listen_cond host p request = Normal true
  <-> three_part_rule host missing_or_empty present p request.
Proof.
  intros Hupper. unfold listen_cond, three_part_rule.
  rewrite !js_and_true.
  rewrite (method_part p (req_method request) Hupper).
  rewrite (url_part host p (req_url request)).
  rewrite (data_part host p (post request)).
  tauto.
Qed.

Lemma listen_cond_three_part_rule_witness :
  is_upper (req_method post_ajax_info_2)
  /\ (listen_cond example_host (example_objects 1) post_ajax_info_2 = Normal true
      <-> three_part_rule example_host missing_or_empty present
            (example_objects 1) post_ajax_info_2).
Proof.
  split; [reflexivity|].
  apply (listen_cond_three_part_rule example_host (example_objects 1) post_ajax_info_2).
  reflexivity.
Defined.

(** C2, as stated, fails for a pattern whose data is the empty string:
    the listener takes the entry for a request without a body, although
    the data is not missing and there is no body to contain it. *)
Lemma empty_data_matches_without_body :
  is_upper (req_method get_a)
  /\ listen_cond example_host (example_objects 5) get_a = Normal true
  /\ ~ three_part_rule example_host missing present (example_objects 5) get_a.
Proof.
  split; [reflexivity|]. split; [vm_compute; reflexivity|].
  intros (_ & _ & [H | (pd & _ & (b & Hb & _) & _)]); discriminate.
Qed.

(** C1, as amended.  When no pattern is pending and the entry at index
    [i] is the first the listener takes, the entries before it having
    been evaluated without a throw, the response is the one built from
    that entry; it does not depend on the entries after index [i], and
    the branch for an unmatched request is not taken. *)
Theorem first_match_wins (host : Host) (s : State) (request : Request)
    (i : nat) (e : Entry.t) :
  no_pending s ->
  first_match host s request i e ->
  listen_handler host s request
  = (build_response host (pattern_of s e) (Entry.response e) request, Normal ())
  /\ (forall later,
        listen_handler host (with_mapping s (take i (_mapping s) ++ e :: later)) request
        = listen_handler host s request)
  /\ ~ In (console_log (log_no_match (req_url request)))
          (fst (listen_handler host s request)).
Proof.
  intros Hp Hf.
  pose proof (listen_handler_takes host s request i e Hp Hf) as H.
  rewrite H. split; [reflexivity|]. split.
  - intros later. now apply listen_handler_first_match.
  - apply build_response_not_no_match.
Qed.

Lemma first_match_wins_witness :
  listen_handler example_host scenario post_ajax_info_2
  = (build_response example_host (example_objects 1) mock_response_2 post_ajax_info_2,
     Normal ()).
Proof.
  apply (first_match_wins example_host scenario post_ajax_info_2 1 (entry 1 mock_response_2)).
  - reflexivity.
  - split; [reflexivity|]. split; [vm_compute; reflexivity|].
    intros j e' Hj. destruct j as [|j]; [|lia].
    intros H. injection H as <-. vm_compute. reflexivity.
Defined.

(** C1, as stated, fails when an entry before the earliest matching one
    holds a url that is not a regular expression: the listener throws
    while it evaluates that entry, and answers nothing. *)
Lemma unbalanced_pattern_stops_the_loop :
  no_pending unbalanced_first
  /\ earliest_match example_host unbalanced_first get_b 1 (entry 4 mock_response_2)
  /\ listen_handler example_host unbalanced_first get_b = ([], Throw (SyntaxError "("))
  /\ listen_handler example_host unbalanced_first get_b
     <> (build_response example_host (example_objects 4) mock_response_2 get_b, Normal ()).
Proof.
  split; [reflexivity|]. split; [|split; [vm_compute; reflexivity | vm_compute; discriminate]].
  split; [reflexivity|]. split; [vm_compute; reflexivity|].
  intros j e' Hj. destruct j as [|j]; [|lia].
  intros H. injection H as <-. vm_compute. discriminate.
Qed.

(** C10, as amended.  While the pending slot holds a request object
    with at least one property, the listener evaluates no entry: it
    writes the fixed warning, closes the connection and throws, whatever
    the mapping list, the host and the request are. *)
Theorem pending_when_preempts (host : Host) (s : State) (request : Request)
    (req : ref) :
  submitted s req ->
  keys_length (objects s req) <> 0%nat ->
  listen_handler host s request
  = ([console_log log_pending_when; response_write pending_when_msg; response_close],
     Throw (Thrown pending_when_msg))
  /\ forall (host' : Host) (entries : list Entry.t),
       listen_handler host' (with_mapping s entries) request
       = listen_handler host s request.
Proof.
  unfold submitted. intros Hc Hk.
  assert (H : ~ no_pending s) by (unfold no_pending, currentReq; now rewrite Hc).
  rewrite (listen_handler_pending host s request H).
  split; [reflexivity|]. intros host' entries.
  now apply listen_handler_pending.
Qed.

Lemma pending_when_preempts_witness :
  submitted half_configured 0
  /\ matched example_host half_configured (entry 0 mock_response_1) get_ajax_info_1
  /\ listen_handler example_host half_configured get_ajax_info_1
     = ([console_log log_pending_when; response_write pending_when_msg; response_close],
        Throw (Thrown pending_when_msg)).
Proof.
  split; [reflexivity|]. split; [vm_compute; reflexivity|].
  apply (pending_when_preempts example_host half_configured get_ajax_info_1 0).
  - reflexivity.
  - discriminate.
Defined.

(** C10, as stated, fails after a [when] on a request object without
    properties: a pattern was submitted and no [response] followed, yet
    the guard of the listener is passed and the request is answered
    from the first entry that matches. *)
Lemma empty_object_does_not_preempt :
  submitted empty_submitted 2
  /\ keys_length (objects empty_submitted 2) = 0%nat
  /\ listen_handler example_host empty_submitted get_ajax_info_1
     = (build_response example_host (example_objects 0) mock_response_1 get_ajax_info_1,
        Normal ())
  /\ snd (listen_handler example_host empty_submitted get_ajax_info_1)
     <> Throw (Thrown pending_when_msg).
Proof.
  split; [reflexivity|]. split; [reflexivity|]. split; [reflexivity | discriminate].
Qed.

(** *** The mapping store *)

(** C4, as amended.  When nothing was submitted, or the request object
    submitted has no property, [response] throws the error of an
    unmatched pattern and leaves the state, and so the mapping list, as
    it was; when the request object submitted has at least one property,
    [response] appends the pair of that object and the plan at the end
    of the list, empties the pending slot, and leaves the request
    objects as they were. *)
Theorem response_attaches (host : Host) (plan : ResponsePlan) (s : State) :
  ((nothing_submitted s
    \/ exists req, submitted s req /\ keys_length (objects s req) = 0%nat) ->
   exists e, response host plan s = (s, Throw e) /\ UnmatchedPatternError e)
  /\ (forall req,
        submitted s req ->
        keys_length (objects s req) <> 0%nat ->
        exists s',
          response host plan s = (s', Normal ())
          /\ _mapping s'
             = _mapping s ++ [{| Entry.request := req; Entry.response := plan |}]
          /\ nothing_submitted s'
          /\ objects s' = objects s).
Proof.
  unfold nothing_submitted, submitted. split.
  - intros H. exists (Thrown no_when_msg). split; [|reflexivity].
    apply response_not_pending. unfold no_pending, currentReq.
    destruct H as [-> | (req & -> & Hk)]; [reflexivity | exact Hk].
  - intros req Hc Hk.
    destruct (response_pending host plan s req Hc Hk) as (s' & Hr & Hm & Hn & Ho).
    exists s'. now repeat split.
Qed.

Lemma response_attaches_witness :
  (nothing_submitted scenario
   /\ response example_host hang scenario = (scenario, Throw (Thrown no_when_msg)))
  /\ (submitted half_configured 0
      /\ _mapping (fst (response example_host hang half_configured))
         = _mapping half_configured ++ [entry 0 hang]).
Proof.
  destruct (response_attaches example_host hang scenario) as [Hempty _].
  destruct (response_attaches example_host hang half_configured) as [_ Hfull].
  assert (H0 : nothing_submitted scenario) by reflexivity.
  assert (H1 : submitted half_configured 0) by reflexivity.
  split.
  - split; [exact H0|].
    destruct (Hempty (or_introl H0)) as (e & He & Hu). rewrite He, Hu. reflexivity.
  - split; [exact H1|].
    destruct (Hfull 0%nat H1) as (s' & Hr & Hm & _); [discriminate|].
    rewrite Hr. simpl. rewrite Hm. reflexivity.
Defined.

(** C4, as stated, fails after a [when] on a request object without
    properties: the slot holds the pattern submitted, not yet paired
    with a plan, yet [response] throws and appends nothing. *)
Lemma response_after_when_on_empty_object :
  submitted empty_submitted 2
  /\ keys_length (objects empty_submitted 2) = 0%nat
  /\ response example_host hang empty_submitted
     = (empty_submitted, Throw (Thrown no_when_msg))
  /\ _mapping (fst (response example_host hang empty_submitted)) = _mapping scenario.
Proof. repeat split. Qed.

(** C9, as amended.  A [when] on a request object that has at least one
    property, called while the pattern of an earlier [when] is still
    pending, raises nothing and replaces the pending pattern: the next
    [response] appends the entry of that object and the plan, and
    nothing else. *)
Theorem last_when_wins (host : Host) (s : State) (p1 p2 : ref) (plan : ResponsePlan) :
  keys_length (objects s p2) <> 0%nat ->
  _currentReq (when p2 (when p1 s)) = Some p2
  /\ exists s',
       response host plan (when p2 (when p1 s)) = (s', Normal ())
       /\ _mapping s' = _mapping s ++ [{| Entry.request := p2; Entry.response := plan |}]
       /\ no_pending s'.
Proof.
  intros Hk. split; [reflexivity|].
  destruct (response_pending host plan (when p2 (when p1 s)) p2) as (s' & Hr & Hm & Hn & _).
  - reflexivity.
  - now rewrite !keys_length_when.
  - exists s'. split; [exact Hr|]. split; [exact Hm|].
    unfold no_pending, currentReq. now rewrite Hn.
Qed.

Lemma last_when_wins_witness :
  keys_length (objects scenario 1) <> 0%nat
  /\ _mapping (fst (response example_host hang (when 1 (when 0 scenario))))
     = _mapping scenario ++ [entry 1 hang].
Proof.
  assert (Hk : keys_length (objects scenario 1) <> 0%nat) by (vm_compute; discriminate).
  split; [exact Hk|].
  destruct (last_when_wins example_host scenario 0 1 hang Hk) as (_ & s' & Hr & Hm & _).
  rewrite Hr. exact Hm.
Defined.

(** C9, as stated, fails when the second request object has no
    property: the slot then counts as empty, and the next [response]
    throws and appends nothing. *)
Lemma when_empty_object_is_not_pending :
  keys_length (example_objects 0) <> 0%nat
  /\ keys_length (example_objects 2) = 0%nat
  /\ _currentReq (when 2 (when 0 scenario)) = Some 2%nat
  /\ response example_host hang (when 2 (when 0 scenario))
     = (when 2 (when 0 scenario), Throw (Thrown no_when_msg))
  /\ _mapping (fst (response example_host hang (when 2 (when 0 scenario))))
     = _mapping scenario.
Proof.
  split; [discriminate|]. repeat split.
Qed.

(** C5.  After [reset], whatever calls of [when] and [response] came
    before, the mapping list is empty and nothing is pending, and the
    listener answers any request with status 404, closes the connection
    and writes no body. *)
Theorem reset_clears (host : Host) (calls : list call) (s0 : State) (request : Request) :
  let s := reset host (run host calls s0) in
  _mapping s = []
  /\ _currentReq s = None
  /\ no_pending s
  /\ (forall e, ~ (e ∈ _mapping s /\ matched host s e request))
  /\ listen_handler host s request
     = ([console_log (log_no_match (req_url request));
         set_statusCode (JNum (JInt 404));
         response_close],
        Normal ()).
Proof.
  simpl. repeat split.
  intros e [He _]. simpl in He. now apply elem_of_nil in He.
Qed.

(** *** Response synthesis *)

(** C6.  When the entry the listener takes has a plan whose [isTimeout]
    is [true], or a string equal to [true] up to case, the listener sets
    the status and the headers and does nothing else: it writes no body,
    does not close the connection and schedules no delivery, and the
    [responseTime] of the plan plays no part. *)
Theorem timeout_plan_never_delivers (host : Host) (s : State) (request : Request)
    (i : nat) (e : Entry.t) :
  no_pending s ->
  first_match host s request i e ->
  timeout_plan (Entry.response e) ->
  (exists st hd,
     listen_handler host s request
     = ([console_log (log_matched (req_url request) (pattern_of s e));
         set_statusCode st;
         set_headers hd;
         console_log (log_simulate_timeout (req_url request))],
        Normal ()))
  /\ Forall (fun ev => delivers ev = false) (fst (listen_handler host s request))
  /\ forall v,
       build_response host (pattern_of s e) (with_responseTime v (Entry.response e)) request
       = fst (listen_handler host s request).
Proof.
  intros Hp Hf Ht. apply simulates_timeout_true in Ht.
  rewrite (listen_handler_takes host s request i e Hp Hf).
  rewrite (build_response_timeout host _ _ request Ht). simpl.
  split; [eauto|]. split.
  - repeat constructor.
  - intros v. now rewrite build_response_timeout.
Qed.

Lemma timeout_plan_never_delivers_witness :
  Forall (fun ev => delivers ev = false)
         (fst (listen_handler example_host hanging get_ajax_info_1)).
Proof.
  apply (timeout_plan_never_delivers example_host hanging get_ajax_info_1 0 (entry 0 hang)).
  - reflexivity.
  - split; [reflexivity|]. split; [vm_compute; reflexivity|]. intros j e' Hj. lia.
  - left. reflexivity.
Defined.

(** C7.  When the entry the listener takes has a plan that does not
    simulate a timeout, the listener returns normally after scheduling
    one delivery.  Its body is [responseText] when that is a string;
    otherwise, when [responseFile] is set, what reading the file gives,
    and the empty string, the error being logged, when the read fails;
    otherwise the empty string.  The status is 200 when the plan has
    none, the headers are the empty mapping when the plan has none, and
    the delay is 0 when [responseTime] is not a number. *)
Theorem response_synthesis (host : Host) (s : State) (request : Request)
    (i : nat) (e : Entry.t) :
  no_pending s ->
  first_match host s request i e ->
  ~ timeout_plan (Entry.response e) ->
  exists st hd delay body logs,
    listen_handler host s request
    = ([console_log (log_matched (req_url request) (pattern_of s e));
        set_statusCode st;
        set_headers hd]
       ++ logs
       ++ [setTimeout
             [response_write body;
              response_close;
              console_log (log_served (req_url request) delay st body hd)]
             delay],
       Normal ())
    /\ (forall t, responseText (Entry.response e) = JStr t -> body = t /\ logs = [])
    /\ (isString (responseText (Entry.response e)) = false ->
        truthy (responseFile (Entry.response e)) = true ->
        match fs_read host (responseFile (Entry.response e)) with
        | Some content => body = content
        | None =>
            body = EmptyString
            /\ In (console_log (log_error (responseFile (Entry.response e)))) logs
        end)
    /\ (isString (responseText (Entry.response e)) = false ->
        truthy (responseFile (Entry.response e)) = false ->
        body = EmptyString /\ logs = [])
    /\ (status (Entry.response e) = JUndefined -> st = JNum (JInt 200))
    /\ (truthy (status (Entry.response e)) = true -> st = status (Entry.response e))
    /\ (headers (Entry.response e) = JUndefined -> hd = JObj ∅)
    /\ (truthy (headers (Entry.response e)) = true -> hd = headers (Entry.response e))
    /\ (forall n, responseTime (Entry.response e) = JNum n -> delay = n)
    /\ (isNumber (responseTime (Entry.response e)) = false -> delay = JInt 0).
Proof.
  intros Hp Hf Ht.
  assert (Hs : simulates_timeout (Entry.response e) = false).
  { destruct (simulates_timeout (Entry.response e)) eqn:E; [|reflexivity].
    elim Ht. now apply simulates_timeout_true. }
  rewrite (listen_handler_takes host s request i e Hp Hf).
  destruct (build_response_timed host (pattern_of s e) (Entry.response e) request Hs)
    as (body & logs & Heq & Htext & Hfile & Hnone).
  rewrite Heq. eexists _, _, _, body, logs. split; [reflexivity|].
  split; [exact Htext|]. split; [exact Hfile|]. split; [exact Hnone|].
  repeat split.
  - now intros ->.
  - now intros ->.
  - now intros ->.
  - now intros ->.
  - now intros n ->.
  - intros Hn. destruct (responseTime (Entry.response e)); try reflexivity. discriminate.
Qed.

Lemma response_synthesis_witness :
  snd (listen_handler example_host served_from_file get_ajax_info_1) = Normal ().
Proof.
  destruct (response_synthesis example_host served_from_file get_ajax_info_1 0
              (entry 0 from_file)) as (st & hd & delay & body & logs & Heq & _).
  - reflexivity.
  - split; [reflexivity|]. split; [vm_compute; reflexivity|]. intros j e' Hj. lia.
  - intros [H | (t & H & _)]; discriminate.
  - rewrite Heq. reflexivity.
Defined.

(** *** The port of [start] *)

(** C3, at a string that is not numeric.  [parseInt] reads NaN in it,
    NaN passes the range test, and [start] goes on to bind: the port
    stored is NaN, the server object is created, and the server is up
    when the host binds it; at no point is the error of an invalid port
    thrown. *)
Theorem start_non_numeric_string_binds (host : Host) (objs : ref -> RequestPattern) :
  parseInt (trim "abc") = JNaN
  /\ exists s',
       start host (JStr "abc") (initial objs)
       = (s', if server_listen host JNaN
              then Normal ()
              else Throw (Thrown not_started_msg))
       /\ _port s' = JNaN
       /\ server s' = true
       /\ isServerUp s' = server_listen host JNaN
       /\ forall e, snd (start host (JStr "abc") (initial objs)) = Throw e ->
                    ~ InvalidPortError e.
Proof.
  split; [reflexivity|].
  destruct (start_binds host (JStr "abc") JNaN (initial objs))
    as (s' & Hs & Hport & Hsrv & Hup & _).
  - right. now exists "abc".
  - reflexivity.
  - reflexivity.
  - exists s'. rewrite Hs. repeat split; try assumption.
    simpl. intros e He [port [H|H]]; subst e;
      destruct (server_listen host JNaN); discriminate.
Qed.

(** On the example host, where every port can be bound, the server is
    up after [start] on that string. *)
Lemma start_non_numeric_string_is_up :
  isServerUp (fst (start example_host (JStr "abc") (initial example_objects))) = true
  /\ snd (start example_host (JStr "abc") (initial example_objects)) = Normal ().
Proof. split; reflexivity. Qed.

(** *** The filter on outbound requests *)

(** The condition of the filter and the condition of the listener make
    the same tests of the method and of the url: on the same method and
    url they agree on every pattern whose data is missing or empty,
    whatever the bodies are. *)
Lemma changeUrl_cond_without_data (host : Host) (p : RequestPattern) (m u : string)
    (body body' : option string) :
  missing_or_empty (data p) ->
  changeUrl_cond host p {| rd_method := m; rd_url := u; postData := body |}
  = listen_cond host p {| req_method := m; req_url := u; post := body' |}.
Proof.
  unfold changeUrl_cond, listen_cond; simpl.
  intros H. apply truthy_str_false in H. now rewrite H.
Qed.

(** C8, at a page request that posts two lines, with one mapping whose
    data is those two lines.  The filter finds the data in the post data
    as it is and redirects the request to the mock server; the listener,
    which looks in the serialized body, where the line feed is written
    as an escape, takes no entry for that same request and answers 404.
    Without post data, the filter throws a type error on the pattern,
    where the listener, which tests that there is a body first, does
    not match. *)
Theorem filter_redirects_what_the_listener_rejects :
  _mapping two_lines_mapped = [entry 6 mock_response_1]
  /\ pattern_of two_lines_mapped (entry 6 mock_response_1) = example_objects 6
  /\ changeUrl_cond casper_host (example_objects 6) page_two_lines = Normal true
  /\ listen_cond casper_host (example_objects 6) post_two_lines = Normal false
  /\ bridge_filter casper_host two_lines_mapped page_two_lines
     = ([call_existing; request_changeUrl "/x" (JInt 9001)], Normal ())
  /\ listen_handler casper_host two_lines_mapped post_two_lines
     = ([console_log (log_no_match "/x");
         set_statusCode (JNum (JInt 404));
         response_close],
        Normal ())
  /\ changeUrl_cond casper_host (example_objects 6)
       {| rd_method := "GET"; rd_url := "/x"; postData := None |}
     = Throw TypeError
  /\ listen_cond casper_host (example_objects 6)
       {| req_method := "GET"; req_url := "/x"; post := None |}
     = Normal false.
Proof.
  split; [reflexivity|]. split; [reflexivity|].
  repeat split; vm_compute; reflexivity.
Qed.

(** The same divergence on the host outside CasperJS, at the level of
    the two conditions. *)
Lemma line_feed_in_body_diverges :
  changeUrl_cond example_host (example_objects 6)
    {| rd_method := "POST"; rd_url := "/x"; postData := Some two_lines |}
  = Normal true
  /\ listen_cond example_host (example_objects 6)
       {| req_method := "POST"; req_url := "/x"; post := Some two_lines |}
     = Normal false.
Proof. split; vm_compute; reflexivity. Qed.

(** Without post data the filter does not evaluate to a boolean on a
    pattern with data: reading [indexOf] of [undefined] throws, where
    the listener tests that there is a body first. *)
Lemma changeUrl_cond_without_postData :
  changeUrl_cond example_host (example_objects 1)
    {| rd_method := "POST"; rd_url := "/demo/ajax_info_2.txt"; postData := None |}
  = Throw TypeError
  /\ listen_cond example_host (example_objects 1)
       {| req_method := "POST"; req_url := "/demo/ajax_info_2.txt"; post := None |}
     = Normal false.
Proof. split; vm_compute; reflexivity. Qed.

(** *** Closed instances *)

Lemma reset_clears_witness :
  listen_handler example_host (reset example_host scenario) get_ajax_info_1
  = ([console_log (log_no_match (req_url get_ajax_info_1));
      set_statusCode (JNum (JInt 404));
      response_close],
     Normal ()).
Proof.
  apply (reset_clears example_host
           [call_when 0%nat; call_response mock_response_1;
            call_when 1%nat; call_response mock_response_2]
           (initial example_objects) get_ajax_info_1).
Defined.

Lemma start_non_numeric_string_binds_witness :
  exists s',
    start example_host (JStr "abc") (initial example_objects) = (s', Normal ())
    /\ isServerUp s' = true.
Proof.
  destruct (start_non_numeric_string_binds example_host example_objects)
    as (_ & s' & Hs & _ & _ & Hup & _).
  exists s'. split; [exact Hs | exact Hup].
Defined.

(** *** The scenarios of the design document, on the example host *)

(** Scenario A: a GET whose url contains [ajax_info_1] is answered with
    status 200 and the text of the first mapping, without delay. *)
Example scenario_A :
  listen_handler example_host scenario get_ajax_info_1
  = ([console_log (log_matched "/demo/ajax_info_1.txt" (example_objects 0));
      set_statusCode (JNum (JInt 200));
      set_headers (JObj ∅);
      setTimeout
        [response_write "Mock Response 1";
         response_close;
         console_log
           (log_served "/demo/ajax_info_1.txt" (JInt 0) (JNum (JInt 200))
              "Mock Response 1" (JObj ∅))]
        (JInt 0)],
     Normal ()).
Proof. reflexivity. Qed.

(** Scenario B: a POST whose body contains [member_id=1] is answered
    after 5000 ms with the text of the second mapping. *)
Example scenario_B :
  listen_handler example_host scenario post_ajax_info_2
  = ([console_log (log_matched "/demo/ajax_info_2.txt" (example_objects 1));
      set_statusCode (JNum (JInt 200));
      set_headers (JObj ∅);
      setTimeout
        [response_write "Mock Response 2";
         response_close;
         console_log
           (log_served "/demo/ajax_info_2.txt" (JInt 5000) (JNum (JInt 200))
              "Mock Response 2" (JObj ∅))]
        (JInt 5000)],
     Normal ()).
Proof. vm_compute. reflexivity. Qed.

(** Scenario B, with a body that does not contain [member_id=1]: 404. *)
Example scenario_B_other_body :
  listen_handler example_host scenario
    {| req_method := "POST"; req_url := "/demo/ajax_info_2.txt";
       post := Some "member_id=2" |}
  = ([console_log (log_no_match "/demo/ajax_info_2.txt");
      set_statusCode (JNum (JInt 404));
      response_close],
     Normal ()).
Proof. vm_compute. reflexivity. Qed.

(** Scenario C: the plan that hangs; the status and the headers are set
    and the connection is left alone. *)
Example scenario_C :
  listen_handler example_host hanging get_ajax_info_1
  = ([console_log (log_matched "/demo/ajax_info_1.txt" (example_objects 0));
      set_statusCode (JNum (JInt 200));
      set_headers (JObj ∅);
      console_log (log_simulate_timeout "/demo/ajax_info_1.txt")],
     Normal ()).
Proof. reflexivity. Qed.

(** Scenario D: [response] on a freshly loaded module. *)
Example scenario_D :
  response example_host mock_response_1 (initial example_objects)
  = (initial example_objects, Throw (Thrown no_when_msg)).
Proof. reflexivity. Qed.

(** The quotes of a data pattern are escaped by [when], in the object
    itself; a second [when] on the same object escapes them again. *)
Example when_escapes_in_place :
  let quoted := String dquote (String "a" (String dquote EmptyString)) in
  let objs := fun _ : ref => {| method := None; url := None; data := Some quoted |} in
  data (objects (when 0 (initial objs)) 0)
  = Some (String backslash (String dquote
           (String "a" (String backslash (String dquote EmptyString)))))
  /\ data (objects (when 0 (when 0 (initial objs))) 0)
     = Some (escape_quotes (escape_quotes quoted))
  /\ escape_quotes (escape_quotes quoted) <> escape_quotes quoted.
Proof. split; [reflexivity|]. split; [reflexivity | discriminate]. Qed.

(** ** More properties of the module *)

(** *** Starting and closing *)

Section Lifecycle.

Variable host : Host.

Lemma reads_as_functional (port : jsval) (n n' : jsnum) :
  reads_as port n -> reads_as port n' -> n = n'.
Proof.
  intros [-> | (p & -> & Hp)] [H | (p' & H & Hp')]; try discriminate.
  - now inversion H.
  - inversion H. subst p'. congruence.
Qed.

(** Whom [start] reads a port from: strings and numbers. *)
Lemma reads_as_typed (port : jsval) :
  (exists n, reads_as port n) <-> isString port = true \/ isNumber port = true.
Proof.
  split.
  - intros (n & [-> | (p & -> & _)]); [now right | now left].
  - destruct port; simpl; intros [H|H]; try discriminate.
    + eexists. now left.
    + eexists. right. eauto.
Qed.

Lemma in_range_not_0 (n : jsnum) : in_range n = true -> num_eq n (JInt 0) = false.
Proof.
  destruct n as [z|]; [|reflexivity].
  intros H. apply in_range_JInt in H. simpl. lia.
Qed.

(** The three cases of the port of [start]. *)
Lemma port_cases (port : jsval) :
  (isString port = false /\ isNumber port = false)
  \/ (exists n, reads_as port n /\ in_range n = false)
  \/ (exists n, reads_as port n /\ in_range n = true).
Proof.
  destruct (isString port) eqn:Hs; [|destruct (isNumber port) eqn:Hn].
  - destruct (proj2 (reads_as_typed port) (or_introl Hs)) as (n & Hn).
    right. destruct (in_range n) eqn:E; [right | left]; eauto.
  - destruct (proj2 (reads_as_typed port) (or_intror Hn)) as (n & Hr).
    right. destruct (in_range n) eqn:E; [right | left]; eauto.
  - now left.
Qed.

(** [start] on a port that passes the range test, unless the server is
    up on that very port: the running server, if any, is closed, and the
    port is stored and handed to [server.listen]. *)
Lemma start_rebinds (port : jsval) (thisPort : jsnum) (s : State) :
  reads_as port thisPort ->
  in_range thisPort = true ->
  _isServerUp s && num_eq thisPort (_port s) = false ->
  exists s',
    start host port s
    = (s', if server_listen host thisPort
           then Normal ()
           else Throw (Thrown not_started_msg))
    /\ objects s' = objects (if _isServerUp s then close host s else s)
    /\ _mapping s' = _mapping (if _isServerUp s then close host s else s)
    /\ _currentReq s' = _currentReq (if _isServerUp s then close host s else s)
    /\ _port s' = thisPort
    /\ server s' = true
    /\ _isServerUp s' = server_listen host thisPort
    /\ onResourceRequested s'
       = if isCasperInUsed host then bridge_hook else onResourceRequested s.
Proof.
  intros Hr Hi Hsame. pose proof (in_range_not_0 thisPort Hi) as H0.
  unfold in_range in Hi. apply negb_true_iff in Hi.
  assert (Hs1 : (if _isServerUp s && negb (num_eq thisPort (_port s))
                 then close host s else s)
                = (if _isServerUp s then close host s else s)).
  { destruct (_isServerUp s); [|reflexivity].
    simpl in Hsame. now rewrite Hsame. }
  set (s1 := if _isServerUp s then close host s else s) in *.
  assert (Hstart :
    start host port s
    = let s3 :=
        addToResourceRequestedEvent host
          {| objects := objects s1; _mapping := _mapping s1; _port := thisPort;
             _isServerUp := _isServerUp s1; _currentReq := _currentReq s1;
             server := true; onResourceRequested := onResourceRequested s1 |} in
      let s4 :=
        {| objects := objects s3; _mapping := _mapping s3; _port := _port s3;
           _isServerUp := server_listen host thisPort;
           _currentReq := _currentReq s3; server := server s3;
           onResourceRequested := onResourceRequested s3 |} in
      if server_listen host thisPort
      then (s4, Normal ())
      else (s4, Throw (Thrown not_started_msg))).
  { destruct Hr as [-> | (p & -> & Hp)]; unfold start; [|rewrite Hp];
      rewrite Hi, Hsame, Hs1; reflexivity. }
  rewrite Hstart. clear Hstart. cbv zeta.
  match goal with
  | |- context [addToResourceRequestedEvent host ?s2] =>
      destruct (addToResourceRequestedEvent_keeps host s2)
        as (Ho & Hm & Hport & _ & Hc & Hsrv)
  end.
  rewrite if_same_state. eexists. split; [reflexivity|].
  simpl. rewrite Ho, Hm, Hport, Hc, Hsrv. repeat split.
  unfold addToResourceRequestedEvent; simpl. rewrite H0.
  subst s1. unfold close, reset.
  destruct (isCasperInUsed host), (_isServerUp s); reflexivity.
Qed.

Lemma start_same_port (port : jsval) (thisPort : jsnum) (s : State) :
  reads_as port thisPort ->
  in_range thisPort = true ->
  _isServerUp s = true ->
  num_eq thisPort (_port s) = true ->
  start host port s = (reset host s, Normal ()).
Proof.
  unfold in_range. intros Hr Hi Hup Heq. apply negb_true_iff in Hi.
  destruct Hr as [-> | (p & -> & Hp)]; unfold start; [|rewrite Hp];
    now rewrite Hi, Hup, Heq.
Qed.

(** X1.  [close] stops the server and empties the store: afterwards the
    server is not up, the port is 0, there is no server object, no
    mapping and nothing pending; closing again changes nothing. *)
Theorem close_stops (s : State) :
  stopped (close host s)
  /\ _mapping (close host s) = []
  /\ no_pending (close host s)
  /\ close host (close host s) = close host s.
Proof.
  repeat split. unfold close, reset; simpl.
  now destruct (isCasperInUsed host).
Qed.

(** X2.  [start] on the port the server is already up on binds nothing:
    it drops the mappings and the pending pattern, as [reset] does, and
    returns; the server stays up on its port. *)
Theorem start_again_on_same_port (port : jsval) (thisPort : jsnum) (s : State) :
  reads_as port thisPort ->
  in_range thisPort = true ->
  _isServerUp s = true ->
  num_eq thisPort (_port s) = true ->
  start host port s = (reset host s, Normal ())
  /\ _mapping (reset host s) = []
  /\ isServerUp (reset host s) = true
  /\ _port (reset host s) = _port s.
Proof.
  intros Hr Hi Hup Heq.
  split; [exact (start_same_port port thisPort s Hr Hi Hup Heq)|]. now repeat split.
Qed.

(** X3.  [start] on another port while the server is up closes it
    first: the mappings defined so far and the pending pattern are
    lost, the new port is stored, and the server is up again when the
    host binds the new port. *)
Theorem start_again_on_other_port (port : jsval) (thisPort : jsnum) (s : State) :
  reads_as port thisPort ->
  in_range thisPort = true ->
  _isServerUp s = true ->
  num_eq thisPort (_port s) = false ->
  exists s',
    start host port s
    = (s', if server_listen host thisPort
           then Normal ()
           else Throw (Thrown not_started_msg))
    /\ _mapping s' = []
    /\ no_pending s'
    /\ _port s' = thisPort
    /\ isServerUp s' = server_listen host thisPort.
Proof.
  intros Hr Hi Hup Hne.
  destruct (start_rebinds port thisPort s Hr Hi) as (s' & Hs & _ & Hm & Hc & Hp & _ & Hu & _).
  - now rewrite Hup, Hne.
  - rewrite Hup in Hm, Hc. exists s'. split; [exact Hs|].
    split; [exact Hm|]. split; [|now split].
    unfold no_pending, currentReq. now rewrite Hc.
Qed.

(** X4.  [start] from a server that is not up keeps what was configured
    before: the mappings, the pending pattern and the request objects
    are as they were; the port is stored and the server object created
    even when the host cannot bind the port, in which case [start]
    throws and the server is not up. *)
Theorem start_keeps_configuration (port : jsval) (thisPort : jsnum) (s : State) :
  reads_as port thisPort ->
  in_range thisPort = true ->
  _isServerUp s = false ->
  exists s',
    start host port s
    = (s', if server_listen host thisPort
           then Normal ()
           else Throw (Thrown not_started_msg))
    /\ _mapping s' = _mapping s
    /\ _currentReq s' = _currentReq s
    /\ objects s' = objects s
    /\ _port s' = thisPort
    /\ server s' = true
    /\ isServerUp s' = server_listen host thisPort.
Proof.
  intros Hr Hi Hup.
  destruct (start_rebinds port thisPort s Hr Hi) as (s' & Hs & Ho & Hm & Hc & Hp & Hsrv & Hu & _).
  - now rewrite Hup.
  - rewrite Hup in Ho, Hm, Hc. exists s'. now repeat split.
Qed.

(** X5.  [start] throws the error of an invalid port exactly when the
    port is neither a string nor a number, or is one that reads as a
    number failing the range test; the state is then left as it was,
    a running server included. *)
Theorem start_invalid_port_iff (port : jsval) (s : State) :
  ((exists e, snd (start host port s) = Throw e /\ InvalidPortError e)
   <-> (isString port = false /\ isNumber port = false)
       \/ exists n, reads_as port n /\ in_range n = false)
  /\ forall e, snd (start host port s) = Throw e -> InvalidPortError e ->
               fst (start host port s) = s.
Proof.
  pose proof (port_cases port) as Hcases.
  assert (Hvalid : forall n e, reads_as port n -> in_range n = true ->
            snd (start host port s) = Throw e -> ~ InvalidPortError e).
  { intros n e Hr Hi He.
    destruct (_isServerUp s && num_eq n (_port s)) eqn:Hsame.
    - apply andb_true_iff in Hsame as [Hup Heq].
      rewrite (start_same_port port n s Hr Hi Hup Heq) in He. discriminate.
    - destruct (start_rebinds port n s Hr Hi Hsame) as (s' & Hs & _).
      rewrite Hs in He. simpl in He.
      destruct (server_listen host n); [discriminate|].
      inversion He. intros (p & [H|H]); discriminate. }
  split; [split|].
  - intros (e & He & Hinv).
    destruct Hcases as [H | [H | (n & Hr & Hi)]]; [now left | now right |].
    elim (Hvalid n e Hr Hi He Hinv).
  - intros [[Hs Hn] | (n & Hr & Hi)].
    + rewrite (start_rejects_other_types host port s Hs Hn).
      eexists. split; [reflexivity|]. exists port. now left.
    + rewrite (start_rejects_out_of_range host port n s Hr Hi).
      eexists. split; [reflexivity|]. exists port. now right.
  - intros e He Hinv.
    destruct Hcases as [[Hs Hn] | [(n & Hr & Hi) | (n & Hr & Hi)]].
    + now rewrite (start_rejects_other_types host port s Hs Hn).
    + now rewrite (start_rejects_out_of_range host port n s Hr Hi).
    + elim (Hvalid n e Hr Hi He Hinv).
Qed.

End Lifecycle.

(** *** What every sequence of calls keeps *)

Section Invariants.

Variable host : Host.

(** [response] touches the mapping, the pending slot and the filter,
    nothing else. *)
Lemma response_keeps (resp : ResponsePlan) (s : State) :
  let s' := fst (response host resp s) in
  objects s' = objects s /\ _port s' = _port s
  /\ _isServerUp s' = _isServerUp s /\ server s' = server s.
Proof.
  unfold response. destruct (_currentReq s) as [req|]; [|now repeat split].
  destruct (keys_length (objects s req) =? 0)%nat; [now repeat split|].
  simpl.
  match goal with
  | |- context [addToResourceRequestedEvent host ?s1] =>
      destruct (addToResourceRequestedEvent_keeps host s1)
        as (Ho & _ & Hport & Hup & _ & Hsrv)
  end.
  now rewrite Ho, Hport, Hup, Hsrv.
Qed.

(** The two outcomes of [response]. *)
Lemma response_cases (resp : ResponsePlan) (s : State) :
  response host resp s = (s, Throw (Thrown no_when_msg))
  \/ exists req s',
       _currentReq s = Some req
       /\ keys_length (objects s req) <> 0%nat
       /\ response host resp s = (s', Normal ())
       /\ _mapping s' = _mapping s ++ [{| Entry.request := req; Entry.response := resp |}]
       /\ _currentReq s' = None
       /\ objects s' = objects s.
Proof.
  destruct (Nat.eq_dec (keys_length (currentReq s)) 0%nat) as [H|H].
  - left. now apply response_not_pending.
  - right. apply pending_has_ref in H as (req & Hc & Hk).
    destruct (response_pending host resp s req Hc Hk) as (s' & Hr & Hm & Hn & Ho).
    exists req, s'. now repeat split.
Qed.

(** The outcomes of [start], by what they leave of the state. *)
Lemma start_cases (port : jsval) (s : State) :
  fst (start host port s) = s
  \/ (_isServerUp s = true /\ fst (start host port s) = reset host s)
  \/ exists n s',
       in_range n = true
       /\ fst (start host port s) = s'
       /\ objects s' = objects s
       /\ (_mapping s' = _mapping s \/ _mapping s' = [])
       /\ _port s' = n
       /\ server s' = true
       /\ onResourceRequested s'
          = if isCasperInUsed host then bridge_hook else onResourceRequested s.
Proof.
  destruct (port_cases port) as [[Hs Hn] | [(n & Hr & Hi) | (n & Hr & Hi)]].
  - left. now rewrite (start_rejects_other_types host port s Hs Hn).
  - left. now rewrite (start_rejects_out_of_range host port n s Hr Hi).
  - destruct (_isServerUp s && num_eq n (_port s)) eqn:Hsame.
    + apply andb_true_iff in Hsame as [Hup Heq].
      right. left. split; [exact Hup|].
      now rewrite (start_same_port host port n s Hr Hi Hup Heq).
    + destruct (start_rebinds host port n s Hr Hi Hsame)
        as (s' & Hst & Ho & Hm & _ & Hp & Hsrv & _ & Hh).
      right. right. exists n, s'. rewrite Hst. repeat split; try assumption.
      * rewrite Ho. now destruct (_isServerUp s).
      * rewrite Hm. destruct (_isServerUp s); [now right | now left].
Qed.

Lemma lifecycle_ok_exec (s : State) (o : op) :
  lifecycle_ok s -> lifecycle_ok (exec host s o).
Proof.
  intros [Hport Hup]. destruct o as [port| |req|resp|]; simpl.
  - destruct (port_cases port) as [[Hs Hn] | [(n & Hr & Hi) | (n & Hr & Hi)]].
    + rewrite (start_rejects_other_types host port s Hs Hn). now split.
    + rewrite (start_rejects_out_of_range host port n s Hr Hi). now split.
    + destruct (_isServerUp s && num_eq n (_port s)) eqn:Hsame.
      * apply andb_true_iff in Hsame as [Hu Heq].
        rewrite (start_same_port host port n s Hr Hi Hu Heq). now split.
      * destruct (start_rebinds host port n s Hr Hi Hsame)
          as (s' & Hst & _ & _ & _ & Hp & Hsrv & _).
        rewrite Hst. simpl. split; rewrite Hp; [now right | now split].
  - split; [now left | discriminate].
  - now split.
  - destruct (response_keeps resp s) as (_ & Hp & Hu & Hsrv).
    unfold lifecycle_ok. now rewrite Hp, Hu, Hsrv.
  - now split.
Qed.

Lemma keys_length_escaped (p : RequestPattern) :
  keys_length (escaped p) = keys_length p.
Proof.
  unfold escaped. destruct p as [m u [d|]]; simpl; [|reflexivity].
  now destruct (negb (String.eqb d EmptyString)).
Qed.

Lemma entries_have_keys_exec (s : State) (o : op) :
  entries_have_keys s -> entries_have_keys (exec host s o).
Proof.
  unfold entries_have_keys, pattern_of. intros H.
  destruct o as [port| |req|resp|]; unfold exec.
  - destruct (start_cases port s)
      as [-> | [[_ ->] | (n & s' & _ & -> & Ho & [Hm|Hm] & _)]].
    + exact H.
    + constructor.
    + now rewrite Hm, Ho.
    + rewrite Hm. constructor.
  - constructor.
  - rewrite mapping_when. eapply Forall_impl; [exact H|].
    intros e He. now rewrite keys_length_when.
  - destruct (response_cases resp s)
      as [-> | (r & s' & _ & Hk & -> & Hm & _ & Ho)]; [exact H|].
    simpl. rewrite Hm, Ho. apply Forall_app. split; [exact H|].
    constructor; [exact Hk | constructor].
  - constructor.
Qed.

Lemma hook_exec (s : State) (o : op) :
  isCasperInUsed host = false ->
  onResourceRequested (exec host s o) = onResourceRequested s.
Proof.
  intros Hc. destruct o as [port| |req|resp|]; simpl; rewrite ?Hc; try reflexivity.
  - destruct (start_cases port s)
      as [-> | [[_ ->] | (n & s' & _ & -> & _ & _ & _ & _ & Hh)]];
      [reflexivity | simpl; now rewrite Hc | now rewrite Hh, Hc].
  - unfold response. destruct (_currentReq s) as [r|]; [|reflexivity].
    destruct (keys_length (objects s r) =? 0)%nat; [reflexivity|].
    simpl. unfold addToResourceRequestedEvent; simpl. rewrite Hc.
    now destruct (num_eq (_port s) (JInt 0)).
Qed.

(** An invariant of the calls holds after all of them. *)
Lemma exec_all_invariant (P : State -> Prop) :
  (forall s o, P s -> P (exec host s o)) ->
  forall ops s, P s -> P (exec_all host ops s).
Proof.
  intros Hstep ops. induction ops as [|o ops IH]; intros s Hs; [exact Hs|].
  apply IH, Hstep, Hs.
Qed.

(** X6.  Whatever calls are made from the loaded module, the port stored
    is 0 or one that passed the range test of [start], and a server that
    is up has a server object and such a port. *)
Theorem lifecycle_invariant (ops : list op) (objs : ref -> RequestPattern) :
  lifecycle_ok (exec_all host ops (initial objs)).
Proof.
  apply (exec_all_invariant lifecycle_ok lifecycle_ok_exec).
  split; [now left | discriminate].
Qed.

(** X7.  Whatever calls are made from the loaded module, every entry of
    the mapping refers to a request object with at least one property:
    no call stores an object without properties, and [when] never
    removes one. *)
Theorem stored_patterns_have_keys (ops : list op) (objs : ref -> RequestPattern) :
  entries_have_keys (exec_all host ops (initial objs)).
Proof.
  apply (exec_all_invariant entries_have_keys entries_have_keys_exec).
  constructor.
Qed.

(** X8.  The filter on outbound requests: outside CasperJS no call ever
    changes [onResourceRequested]; under CasperJS [reset] and [close]
    put the earlier handler back, and a [response] that attaches a plan
    installs the filter once a port is stored, as does a [start] that
    goes on to bind. *)
Theorem filter_installation (s : State) :
  (isCasperInUsed host = false ->
   forall ops, onResourceRequested (exec_all host ops s) = onResourceRequested s)
  /\ (isCasperInUsed host = true ->
      onResourceRequested (reset host s) = existing_hook
      /\ onResourceRequested (close host s) = existing_hook
      /\ (forall resp s',
            response host resp s = (s', Normal ()) ->
            onResourceRequested s'
            = if num_eq (_port s) (JInt 0) then onResourceRequested s else bridge_hook)
      /\ (forall port n,
            reads_as port n -> in_range n = true ->
            _isServerUp s && num_eq n (_port s) = false ->
            onResourceRequested (fst (start host port s)) = bridge_hook)).
Proof.
  split.
  - intros Hc ops. revert s. induction ops as [|o ops IH]; intros s; [reflexivity|].
    simpl. now rewrite IH, hook_exec.
  - intros Hc. unfold close, reset; simpl. rewrite Hc.
    split; [reflexivity|]. split; [reflexivity|]. split.
    + intros resp s' Hr. unfold response in Hr.
      destruct (_currentReq s) as [r|]; [|discriminate].
      destruct (keys_length (objects s r) =? 0)%nat; [discriminate|].
      inversion Hr. simpl. unfold addToResourceRequestedEvent; simpl. rewrite Hc.
      now destruct (num_eq (_port s) (JInt 0)).
    + intros port n Hr Hi Hsame.
      destruct (start_rebinds host port n s Hr Hi Hsame) as (s' & Hst & Hrest).
      rewrite Hst. simpl. destruct Hrest as (_ & _ & _ & _ & _ & _ & ->).
      now rewrite Hc.
Qed.

(** X9.  Defining patterns and attaching plans in turn appends one entry
    per pair, in the order of the calls, provided each request object
    has a property; nothing is pending afterwards. *)
Theorem define_appends_in_order (pairs : list (ref * ResponsePlan)) (s : State) :
  Forall (fun rp => keys_length (objects s (fst rp)) <> 0%nat) pairs ->
  _mapping (run host (define pairs) s)
  = _mapping s ++ map (fun rp => entry (fst rp) (snd rp)) pairs
  /\ (pairs <> [] -> no_pending (run host (define pairs) s)).
Proof.
  revert s. induction pairs as [|[r plan] pairs IH]; intros s Hall.
  - simpl. rewrite app_nil_r. now split.
  - inversion Hall as [|? ? Hr Hrest]; subst. simpl in Hr.
    change (run host (define ((r, plan) :: pairs)) s)
      with (run host (define pairs) (fst (response host plan (when r s)))).
    destruct (response_pending host plan (when r s) r) as (s' & Hs & Hm & Hn & Ho).
    + reflexivity.
    + now rewrite keys_length_when.
    + rewrite Hs. simpl.
      assert (Hall' : Forall (fun rp => keys_length (objects s' (fst rp)) <> 0%nat) pairs).
      { eapply Forall_impl; [exact Hrest|]. intros rp Hrp. rewrite Ho.
        now rewrite keys_length_when. }
      destruct (IH s' Hall') as [IHm IHp]. split.
      * rewrite IHm, Hm. simpl. now rewrite <- app_assoc.
      * intros _. destruct pairs as [|rp pairs].
        -- simpl. unfold no_pending, currentReq. now rewrite Hn.
        -- now apply IHp.
Qed.

End Invariants.

(** *** Request objects and their escaping *)

Section Escaping.

Variable host : Host.

Lemma length_escape_quotes (d : string) :
  String.length (escape_quotes d) = (String.length d + quotes d)%nat.
Proof.
  induction d as [|c d IH]; [reflexivity|]. simpl.
  destruct (Ascii.eqb c dquote); simpl; rewrite IH; lia.
Qed.

Lemma quotes_escape_quotes (d : string) : quotes (escape_quotes d) = quotes d.
Proof.
  induction d as [|c d IH]; [reflexivity|]. simpl.
  destruct (Ascii.eqb c dquote) eqn:E; simpl; rewrite ?E, IH; reflexivity.
Qed.

Lemma escape_quotes_none (d : string) : quotes d = 0%nat -> escape_quotes d = d.
Proof.
  induction d as [|c d IH]; [reflexivity|]. simpl.
  destruct (Ascii.eqb c dquote); [discriminate|].
  intros H. now rewrite IH.
Qed.

Lemma escape_quotes_fixed (d : string) : escape_quotes d = d <-> quotes d = 0%nat.
Proof.
  split; [|apply escape_quotes_none].
  intros H. apply (f_equal String.length) in H.
  rewrite length_escape_quotes in H. lia.
Qed.

Lemma escape_quotes_not_empty (d : string) :
  d <> EmptyString -> escape_quotes d <> EmptyString.
Proof.
  destruct d as [|c d]; [congruence|]. intros _. simpl.
  destruct (Ascii.eqb c dquote); discriminate.
Qed.

Lemma objects_when_same (req : ref) (s : State) :
  objects (when req s) req = escaped (objects s req).
Proof. unfold when, escaped; simpl. now rewrite fn_lookup_insert. Qed.

Lemma objects_when_other (req r : ref) (s : State) :
  r <> req -> objects (when req s) r = objects s r.
Proof. intros H. unfold when; simpl. now rewrite fn_lookup_insert_ne. Qed.

(** X10.  [when] changes the object it is given and no other: the data
    of that object, when not empty, has its double quotes escaped, its
    method and url stay; so an entry already stored that refers to the
    same object has its pattern changed with it, and the entries that
    refer to other objects keep theirs. *)
Theorem when_changes_the_shared_object (req : ref) (s : State) (e : Entry.t) :
  (e ∈ _mapping (when req s) <-> e ∈ _mapping s)
  /\ (Entry.request e = req ->
      pattern_of (when req s) e = escaped (pattern_of s e)
      /\ method (pattern_of (when req s) e) = method (pattern_of s e)
      /\ url (pattern_of (when req s) e) = url (pattern_of s e))
  /\ (Entry.request e <> req -> pattern_of (when req s) e = pattern_of s e).
Proof.
  unfold pattern_of. rewrite mapping_when. split; [reflexivity|]. split.
  - intros ->. rewrite objects_when_same. split; [reflexivity|].
    unfold escaped. now destruct (truthy_str (data (objects s req))).
  - intros H. now apply objects_when_other.
Qed.

(** X11.  A second [when] on the same object escapes its data again:
    the object is the same after two calls as after one exactly when
    its data holds no double quote. *)
Theorem when_twice_iff_no_quote (req : ref) (s : State) :
  objects (when req (when req s)) req = objects (when req s) req
  <-> quotes (str (data (objects s req))) = 0%nat.
Proof.
  rewrite !objects_when_same. unfold escaped.
  destruct (objects s req) as [m u [d|]]; simpl; [|split; reflexivity].
  destruct (String.eqb d EmptyString) eqn:Hd; simpl.
  - apply String.eqb_eq in Hd. subst d. simpl. split; reflexivity.
  - apply String.eqb_neq in Hd.
    destruct (String.eqb (escape_quotes d) EmptyString) eqn:He.
    + apply String.eqb_eq in He. now apply escape_quotes_not_empty in He.
    + simpl. rewrite <- quotes_escape_quotes, <- escape_quotes_fixed.
      split; [now intros [= ->] | now intros ->].
Qed.

End Escaping.

(** *** The listener, continued *)

Section ListenerOutcomes.

Variable host : Host.

Lemma json_escape_plain (c : ascii) :
  json_plain c = true ->
  json_escape c
  = if Ascii.eqb c dquote
    then String backslash (String dquote EmptyString)
    else String c EmptyString.
Proof. destruct c as [[] [] [] [] [] [] [] []]; try discriminate; reflexivity. Qed.

Lemma json_escape_all_plain (d : string) :
  all_chars json_plain d = true -> json_escape_all d = escape_quotes d.
Proof.
  induction d as [|c d IH]; [reflexivity|]. simpl.
  intros H. apply andb_true_iff in H as [Hc Hd].
  rewrite (json_escape_plain c Hc), (IH Hd).
  now destruct (Ascii.eqb c dquote).
Qed.

Lemma json_escape_all_app (a b : string) :
  json_escape_all (a +:+ b) = json_escape_all a +:+ json_escape_all b.
Proof.
  induction a as [|c a IH]; [reflexivity|].
  rewrite append_cons. simpl. now rewrite IH, append_assoc.
Qed.

(** A string found in the body is found, escaped, in the serialized
    body, when it holds no backslash and no control character. *)
Lemma is_substring_serialized (d b : string) :
  all_chars json_plain d = true ->
  is_substring d b ->
  is_substring (escape_quotes d) (JSON_stringify b).
Proof.
  intros Hd (before & after & ->). unfold JSON_stringify.
  exists (String dquote (json_escape_all before)),
         (json_escape_all after +:+ String dquote EmptyString).
  rewrite !json_escape_all_app, (json_escape_all_plain d Hd).
  now rewrite append_cons, !append_assoc.
Qed.

Lemma is_substring_not_empty (d b : string) :
  d <> EmptyString -> is_substring d b -> b <> EmptyString.
Proof.
  intros Hd (before & after & ->) H.
  destruct before; [|discriminate]. destruct d; [congruence | discriminate].
Qed.

(** X12.  What the escaping of [when] is for: when the data the caller
    gave holds no backslash and no control character, a request whose
    body contains that data passes the data test of the listener, by
    the substring test alone; the entry is then taken or not as the
    same pattern without data would be. *)
Theorem escaped_data_is_found (req : ref) (s : State) (request : Request)
    (d b : string) :
  data (objects s req) = Some d ->
  d <> EmptyString ->
  all_chars json_plain d = true ->
  post request = Some b ->
  is_substring d b ->
  listen_cond host (objects (when req s) req) request
  = listen_cond host (without_data (objects s req)) request.
Proof.
  intros Hdata Hd Hplain Hpost Hsub.
  pose proof (is_substring_not_empty d b Hd Hsub) as Hb.
  pose proof (is_substring_serialized d b Hplain Hsub) as Hser.
  apply indexOf_is_substring in Hser.
  rewrite objects_when_same. unfold escaped, listen_cond, without_data.
  rewrite Hdata, Hpost. simpl.
  apply String.eqb_neq in Hd, Hb. rewrite Hd, Hb. simpl.
  destruct (String.eqb (escape_quotes d) EmptyString) eqn:He.
  - apply String.eqb_eq in He. apply String.eqb_neq in Hd.
    now apply escape_quotes_not_empty in He.
  - simpl. now rewrite Hser.
Qed.

Lemma upper_upper_ascii (c : ascii) : upper_ascii (upper_ascii c) = upper_ascii c.
Proof. destruct c as [[] [] [] [] [] [] [] []]; reflexivity. Qed.

Lemma toUpperCase_idempotent (a : string) : toUpperCase (toUpperCase a) = toUpperCase a.
Proof.
  induction a as [|c a IH]; [reflexivity|]. simpl.
  now rewrite upper_upper_ascii, IH.
Qed.

(** X13.  The method of the pattern is upper-cased, the method of the
    request is not: a request whose method is not in upper case is not
    taken by any entry whose pattern has a method. *)
Theorem lower_case_method_never_matches (p : RequestPattern) (request : Request) :
  truthy_str (method p) = true ->
  ~ is_upper (req_method request) ->
  listen_cond host p request = Normal false.
Proof.
  intros Hm Hu. unfold listen_cond. rewrite Hm. simpl.
  destruct (String.eqb (toUpperCase (str (method p))) (req_method request)) eqn:E;
    [|reflexivity].
  apply String.eqb_eq in E. elim Hu. unfold is_upper.
  rewrite <- E. apply toUpperCase_idempotent.
Qed.

(** The loop over a list of entries ends in one of three ways. *)
Lemma match_loop_cases (s : State) (entries : list Entry.t) (request : Request) :
  (exists before e after,
     entries = before ++ e :: after
     /\ Forall (fun e' => listen_cond host (pattern_of s e') request = Normal false) before
     /\ listen_cond host (pattern_of s e) request = Normal true)
  \/ Forall (fun e' => listen_cond host (pattern_of s e') request = Normal false) entries
  \/ (exists before e after x,
        entries = before ++ e :: after
        /\ Forall (fun e' => listen_cond host (pattern_of s e') request = Normal false) before
        /\ listen_cond host (pattern_of s e) request = Throw x).
Proof.
  induction entries as [|e entries IH].
  - right. left. constructor.
  - destruct (listen_cond host (pattern_of s e) request) as [[|]|x] eqn:He.
    + left. exists [], e, entries. repeat split; [constructor | exact He].
    + destruct IH as [(before & e1 & after & -> & Hb & H1)
                     | [Hall | (before & e1 & after & x & -> & Hb & H1)]].
      * left. exists (e :: before), e1, after.
        repeat split; [now constructor | exact H1].
      * right. left. now constructor.
      * right. right. exists (e :: before), e1, after, x.
        repeat split; [now constructor | exact H1].
    + right. right. exists [], e, entries, x.
      repeat split; [constructor | exact He].
Qed.

Lemma first_match_of_split (s : State) (request : Request)
    (before after : list Entry.t) (e : Entry.t) :
  _mapping s = before ++ e :: after ->
  Forall (fun e' => listen_cond host (pattern_of s e') request = Normal false) before ->
  listen_cond host (pattern_of s e) request = Normal true ->
  first_match host s request (length before) e.
Proof.
  intros Hm Hb He. unfold first_match. rewrite Hm. split; [|split].
  - now rewrite list_lookup_middle.
  - exact He.
  - intros j e' Hj Hl. rewrite lookup_app_l in Hl by exact Hj.
    now apply (proj1 (Forall_lookup _ _) Hb j e').
Qed.

(** X14.  With nothing pending the listener does exactly one of three
    things: it answers from the first entry it takes; or, no entry being
    taken, it answers 404; or it throws what the evaluation of an entry
    throws, the entries before it not being taken, and answers
    nothing. *)
Theorem listener_outcomes (s : State) (request : Request) :
  no_pending s ->
  (exists i e,
     first_match host s request i e
     /\ listen_handler host s request
        = (build_response host (pattern_of s e) (Entry.response e) request, Normal ()))
  \/ (Forall (fun e => listen_cond host (pattern_of s e) request = Normal false)
             (_mapping s)
      /\ listen_handler host s request
         = ([console_log (log_no_match (req_url request));
             set_statusCode (JNum (JInt 404));
             response_close],
            Normal ()))
  \/ (exists before e after x,
        _mapping s = before ++ e :: after
        /\ Forall (fun e' => listen_cond host (pattern_of s e') request = Normal false)
                  before
        /\ listen_cond host (pattern_of s e) request = Throw x
        /\ listen_handler host s request = ([], Throw x)).
Proof.
  intros Hp.
  destruct (match_loop_cases s (_mapping s) request)
    as [(before & e & after & Hm & Hb & He)
       | [Hall | (before & e & after & x & Hm & Hb & He)]].
  - left. exists (length before), e.
    pose proof (first_match_of_split s request before after e Hm Hb He) as Hf.
    split; [exact Hf|]. now apply (listen_handler_takes host s request (length before)).
  - right. left. split; [exact Hall|]. now apply listen_handler_no_match.
  - right. right. exists before, e, after, x. repeat split; try assumption.
    now apply (listen_handler_throws host s request before after e x).
Qed.

(** What the condition of the listener can throw. *)
Lemma listen_cond_throws (p : RequestPattern) (request : Request) (x : exn) :
  listen_cond host p request = Throw x ->
  exists re subject,
    (url p = Some re \/ data p = Some re)
    /\ RegExp_test host re subject = None
    /\ x = SyntaxError re.
Proof.
  unfold listen_cond, test.
  destruct (method p) as [pm|], (url p) as [pu|], (data p) as [pd|]; simpl;
    repeat match goal with
    | |- context [negb ?b] => destruct b; simpl
    | |- context [if ?b then _ else _] => destruct b; simpl
    | |- context [String.eqb ?a ?b] => destruct (String.eqb a b); simpl
    | |- context [0 <=? ?z] => destruct (0 <=? z); simpl
    | |- context [RegExp_test host ?r ?u] =>
        destruct (RegExp_test host r u) as [[|]|] eqn:?; simpl
    | |- context [truthy_str ?o] => destruct (truthy_str o); simpl
    end;
    try discriminate;
    intros [= <-]; eauto 6.
Qed.

(** X15.  For stored plans that are objects and patterns whose
    properties are strings, as the embedding has them: what the listener
    throws is its warning, when the test on the pending slot fails, or,
    when it passes, the syntax error of a url or data of a stored
    pattern that the RegExp engine does not compile. *)
Theorem listener_throws_only (s : State) (request : Request) (x : exn) :
  snd (listen_handler host s request) = Throw x ->
  (~ no_pending s /\ x = Thrown pending_when_msg)
  \/ (no_pending s
      /\ exists e re subject,
           e ∈ _mapping s
           /\ (url (pattern_of s e) = Some re \/ data (pattern_of s e) = Some re)
           /\ RegExp_test host re subject = None
           /\ x = SyntaxError re).
Proof.
  intros Hx. destruct (Nat.eq_dec (keys_length (currentReq s)) 0%nat) as [Hp|Hp].
  - right. split; [exact Hp|].
    destruct (match_loop_cases s (_mapping s) request)
      as [(before & e & after & Hm & Hb & He)
         | [Hall | (before & e & after & x' & Hm & Hb & He)]].
    + pose proof (first_match_of_split s request before after e Hm Hb He) as Hf.
      rewrite (listen_handler_takes host s request _ e Hp Hf) in Hx. discriminate.
    + rewrite (listen_handler_no_match host s request Hp Hall) in Hx. discriminate.
    + rewrite (listen_handler_throws host s request before after e x' Hp Hm Hb He) in Hx.
      simpl in Hx. inversion Hx. subst x'.
      destruct (listen_cond_throws _ _ _ He) as (re & subject & Hre & Hnone & ->).
      exists e, re, subject. repeat split; try assumption.
      rewrite Hm. apply elem_of_app. right. now left.
  - left. split; [exact Hp|].
    rewrite (listen_handler_pending host s request Hp) in Hx. now inversion Hx.
Qed.

End ListenerOutcomes.

(** *** The filter on outbound requests, continued *)

Section Filter.

Variable host : Host.

Lemma changeUrl_each_evaluates (s : State) (entries : list Entry.t)
    (requestData : RequestData) :
  Forall (fun e => evaluates host (pattern_of s e) requestData) entries ->
  changeUrl_each host s entries requestData
  = (map (fun _ => request_changeUrl (rd_url requestData) (_port s))
         (List.filter (fun e => redirects host (pattern_of s e) requestData) entries),
     Normal ()).
Proof.
  induction 1 as [|e entries [b He] _ IH]; [reflexivity|].
  unfold pattern_of in He. simpl. unfold changeUrl, redirects, pattern_of.
  rewrite He, IH. now destruct b.
Qed.

Lemma changeUrl_each_throws (s : State) (before after : list Entry.t) (e : Entry.t)
    (requestData : RequestData) (x : exn) :
  Forall (fun e' => evaluates host (pattern_of s e') requestData) before ->
  changeUrl_cond host (pattern_of s e) requestData = Throw x ->
  changeUrl_each host s (before ++ e :: after) requestData
  = (map (fun _ => request_changeUrl (rd_url requestData) (_port s))
         (List.filter (fun e' => redirects host (pattern_of s e') requestData) before),
     Throw x).
Proof.
  intros Hb He. induction Hb as [|e' before [b He'] _ IH]; simpl.
  - unfold changeUrl. unfold pattern_of in He. now rewrite He.
  - unfold pattern_of in He'. unfold changeUrl at 1, redirects, pattern_of.
    rewrite He', IH. now destruct b.
Qed.

(** X16.  The filter does not stop at the first pattern that matches:
    when the condition evaluates for every stored pattern and for the
    pending one, the earlier handler is called first if it is a
    function, then the request is redirected once for every stored
    pattern that matches, in the order of the store, and once more when
    a pattern is pending and matches. *)
Theorem filter_redirects_for_every_match (s : State) (requestData : RequestData) :
  Forall (fun e => evaluates host (pattern_of s e) requestData) (_mapping s) ->
  evaluates host (currentReq s) requestData ->
  bridge_filter host s requestData
  = ((if existing_is_function host then [call_existing] else [])
     ++ map (fun _ => request_changeUrl (rd_url requestData) (_port s))
            (List.filter (fun e => redirects host (pattern_of s e) requestData)
                         (_mapping s))
     ++ (if negb (keys_length (currentReq s) =? 0)%nat
            && redirects host (currentReq s) requestData
         then [request_changeUrl (rd_url requestData) (_port s)]
         else []),
     Normal ()).
Proof.
  intros Hall [b Hb]. unfold bridge_filter.
  rewrite (changeUrl_each_evaluates s (_mapping s) requestData Hall).
  destruct (negb (keys_length (currentReq s) =? 0)%nat); simpl.
  - unfold changeUrl, redirects. rewrite Hb. now destruct b.
  - now rewrite app_nil_r.
Qed.

(** X17.  A throw in the condition of a stored pattern ends the filter:
    the redirections made for the patterns before it stand, and neither
    the patterns after it nor the pending one are tried. *)
Theorem filter_stops_at_a_throw (s : State) (requestData : RequestData)
    (before after : list Entry.t) (e : Entry.t) (x : exn) :
  _mapping s = before ++ e :: after ->
  Forall (fun e' => evaluates host (pattern_of s e') requestData) before ->
  changeUrl_cond host (pattern_of s e) requestData = Throw x ->
  bridge_filter host s requestData
  = ((if existing_is_function host then [call_existing] else [])
     ++ map (fun _ => request_changeUrl (rd_url requestData) (_port s))
            (List.filter (fun e' => redirects host (pattern_of s e') requestData) before),
     Throw x).
Proof.
  intros Hm Hb He. unfold bridge_filter.
  now rewrite Hm, (changeUrl_each_throws s before after e requestData x Hb He).
Qed.

(** X18.  On a request without post data the filter cannot test a
    pattern with data: where the method and the url of the pattern
    match, reading [indexOf] of the missing post data throws a type
    error; where they do not, the outcome is theirs. *)
Theorem filter_needs_post_data (p : RequestPattern) (requestData : RequestData) :
  truthy_str (data p) = true ->
  postData requestData = None ->
  changeUrl_cond host p requestData
  = match changeUrl_cond host (without_data p) requestData with
    | Normal true => Throw TypeError
    | other => other
    end.
Proof.
  intros Hd Hp. unfold changeUrl_cond, without_data.
  cbn [method url data]. rewrite Hd, Hp.
  match goal with
  | |- ?A &&& ?B &&& _ = _ =>
      destruct A as [[|]|x1]; [destruct B as [[|]|x2]|..]; reflexivity
  end.
Qed.

End Filter.

(** *** The port as a string *)

Section DecimalPort.

Variable host : Host.

Lemma digit_char_value (d : nat) :
  (d < 10)%nat ->
  digit_value (digit_char d) = Some (Z.of_nat d)
  /\ is_space (digit_char d) = false.
Proof.
  intros H. do 10 (destruct d as [|d]; [now split|]). lia.
Qed.

Lemma parse_digits_cons (radix : Z) (c : ascii) (s : string) (acc : option Z) :
  parse_digits radix (String c s) acc
  = match digit_value c with
    | Some d =>
        if d <? radix
        then parse_digits radix s (Some (default 0 acc * radix + d))
        else acc
    | None => acc
    end.
Proof. reflexivity. Qed.

Lemma digits_string_cons (d : nat) (ds : list nat) :
  digits_string (d :: ds) = String (digit_char d) (digits_string ds).
Proof. reflexivity. Qed.

Lemma trim_left_cons (c : ascii) (s : string) :
  trim_left (String c s) = if is_space c then trim_left s else String c s.
Proof. reflexivity. Qed.

Lemma trim_right_cons (c : ascii) (s : string) :
  trim_right (String c s)
  = match trim_right s with
    | EmptyString => if is_space c then EmptyString else String c EmptyString
    | t => String c t
    end.
Proof. reflexivity. Qed.

Lemma parse_digits_decimal (ds : list nat) (acc : option Z) :
  Forall (fun d => d < 10)%nat ds ->
  parse_digits 10 (digits_string ds) acc
  = match ds with
    | [] => acc
    | _ => Some (fold_left (fun a d => a * 10 + Z.of_nat d) ds (default 0 acc))
    end.
Proof.
  intros H. revert acc. induction H as [|d ds Hd _ IH]; intros acc; [reflexivity|].
  rewrite digits_string_cons, parse_digits_cons.
  destruct (digit_char_value d Hd) as [-> _].
  assert (Hlt : (Z.of_nat d <? 10) = true) by (apply Z.ltb_lt; lia).
  rewrite Hlt, IH. now destruct ds.
Qed.

Lemma trim_left_spaces (pad x : string) :
  all_chars is_space pad = true -> trim_left (pad +:+ x) = trim_left x.
Proof.
  induction pad as [|c pad IH]; [reflexivity|].
  intros H. apply andb_true_iff in H as [Hc Hpad].
  rewrite append_cons, trim_left_cons, Hc. now apply IH.
Qed.

Lemma trim_right_spaces (x pad : string) :
  all_chars is_space pad = true -> trim_right (x +:+ pad) = trim_right x.
Proof.
  intros Hpad. induction x as [|c x IH].
  - rewrite append_nil_l. induction pad as [|c pad IH]; [reflexivity|].
    apply andb_true_iff in Hpad as [Hc Hpad].
    now rewrite trim_right_cons, (IH Hpad), Hc.
  - now rewrite append_cons, !trim_right_cons, IH.
Qed.

Lemma trim_digits (ds : list nat) :
  Forall (fun d => d < 10)%nat ds ->
  trim_left (digits_string ds) = digits_string ds
  /\ trim_right (digits_string ds) = digits_string ds.
Proof.
  induction 1 as [|d ds Hd _ [_ IH]]; [now split|].
  destruct (digit_char_value d Hd) as [_ Hs].
  rewrite digits_string_cons, trim_left_cons, trim_right_cons, Hs, IH.
  split; [reflexivity|]. now destruct (digits_string ds).
Qed.

Lemma parseInt_digits (ds : list nat) :
  ds <> [] ->
  Forall (fun d => d < 10)%nat ds ->
  parseInt (digits_string ds) = JInt (digits_value ds).
Proof.
  intros Hne Hall. unfold parseInt. rewrite (proj1 (trim_digits ds Hall)).
  pose proof (parse_digits_decimal ds None Hall) as Hp.
  destruct ds as [|d ds]; [congruence|]. clear Hne.
  inversion Hall as [|? ? Hd Hrest]; subst.
  assert (Hshape :
    (let '(sign, s2) :=
       match digits_string (d :: ds) with
       | String "-"%char r => (-1, r)
       | String "+"%char r => (1, r)
       | _ => (1, digits_string (d :: ds))
       end in
     let '(radix, s3) :=
       match s2 with
       | String "0"%char (String "x"%char r) => (16, r)
       | String "0"%char (String "X"%char r) => (16, r)
       | _ => (10, s2)
       end in
     match parse_digits radix s3 None with
     | Some n => JInt (sign * n)
     | None => JNaN
     end)
    = match parse_digits 10 (digits_string (d :: ds)) None with
      | Some n => JInt (1 * n)
      | None => JNaN
      end).
  { do 10 (destruct d as [|d];
           [ destruct ds as [|d' ds]; [reflexivity|];
             inversion Hrest as [|? ? Hd' _]; subst;
             do 10 (destruct d' as [|d']; [reflexivity|]); lia |]).
    lia. }
  rewrite Hshape, Hp. simpl default. unfold digits_value.
  f_equal. lia.
Qed.

(** X19.  A port given as a string of decimal digits, with white space
    around it or not, is read by [start] as the number the digits
    denote: the state [start] leaves is the one it leaves for that
    number. *)
Theorem start_reads_decimal_strings (pad1 pad2 : string) (ds : list nat) (s : State) :
  ds <> [] ->
  Forall (fun d => d < 10)%nat ds ->
  all_chars is_space pad1 = true ->
  all_chars is_space pad2 = true ->
  reads_as (JStr (pad1 +:+ digits_string ds +:+ pad2)) (JInt (digits_value ds))
  /\ fst (start host (JStr (pad1 +:+ digits_string ds +:+ pad2)) s)
     = fst (start host (JNum (JInt (digits_value ds))) s).
Proof.
  intros Hne Hall H1 H2.
  assert (Hread : parseInt (trim (pad1 +:+ digits_string ds +:+ pad2))
                  = JInt (digits_value ds)).
  { unfold trim. rewrite (trim_left_spaces pad1 _ H1).
    assert (Hl : trim_left (digits_string ds +:+ pad2) = digits_string ds +:+ pad2).
    { destruct ds as [|d ds]; [congruence|].
      inversion Hall as [|? ? Hd _]; subst.
      destruct (digit_char_value d Hd) as [_ Hs].
      now rewrite digits_string_cons, append_cons, trim_left_cons, Hs. }
    rewrite Hl, (trim_right_spaces _ pad2 H2), (proj2 (trim_digits ds Hall)).
    now apply parseInt_digits. }
  split; [right; eauto|].
  unfold start. rewrite Hread.
  destruct (num_gt (JInt (digits_value ds)) (JInt 49151)
            || num_lt (JInt (digits_value ds)) (JInt 1025)); [reflexivity|].
  destruct (_isServerUp s && num_eq (JInt (digits_value ds)) (_port s)); [reflexivity|].
  now destruct (server_listen host (JInt (digits_value ds))).
Qed.

End DecimalPort.

(** *** Closed instances of the properties above *)

Lemma start_again_on_same_port_witness :
  start example_host (JStr "9001") running = (reset example_host running, Normal ()).
Proof.
  apply (start_again_on_same_port example_host (JStr "9001") (JInt 9001) running).
  - right. exists "9001". split; reflexivity.
  - reflexivity.
  - reflexivity.
  - reflexivity.
Defined.

Lemma start_again_on_other_port_witness :
  exists s',
    start example_host (JStr "9002") running = (s', Normal ())
    /\ _mapping s' = [] /\ no_pending s' /\ _port s' = JInt 9002.
Proof.
  destruct (start_again_on_other_port example_host (JStr "9002") (JInt 9002) running)
    as (s' & Hs & Hm & Hp & Hport & _).
  - right. exists "9002". split; reflexivity.
  - reflexivity.
  - reflexivity.
  - reflexivity.
  - exists s'. now repeat split.
Defined.

Lemma start_keeps_configuration_witness :
  exists s',
    start example_host (JStr "9001") scenario = (s', Normal ())
    /\ _mapping s' = _mapping scenario /\ _port s' = JInt 9001.
Proof.
  destruct (start_keeps_configuration example_host (JStr "9001") (JInt 9001) scenario)
    as (s' & Hs & Hm & _ & _ & Hport & _).
  - right. exists "9001". split; reflexivity.
  - reflexivity.
  - reflexivity.
  - exists s'. now repeat split.
Defined.

Lemma start_invalid_port_iff_witness :
  fst (start example_host (JNum (JInt 80)) running) = running.
Proof.
  destruct (start_invalid_port_iff example_host (JNum (JInt 80)) running) as [_ H].
  apply (H (ThrownAbout out_of_range_msg (JNum (JInt 80)))).
  - reflexivity.
  - exists (JNum (JInt 80)). now right.
Defined.

Lemma filter_installation_witness :
  onResourceRequested
    (exec_all example_host [op_start (JStr "9001"); op_when 0%nat; op_response hang]
       (initial example_objects))
  = existing_hook
  /\ onResourceRequested (reset casper_host running) = existing_hook.
Proof.
  destruct (filter_installation example_host (initial example_objects)) as [Hout _].
  destruct (filter_installation casper_host running) as [_ Hin].
  split.
  - now rewrite (Hout eq_refl).
  - now destruct (Hin eq_refl) as [H _].
Defined.

Lemma define_appends_in_order_witness :
  _mapping (run example_host
              (define [(0%nat, mock_response_1); (1%nat, mock_response_2)])
              (initial example_objects))
  = [entry 0 mock_response_1; entry 1 mock_response_2].
Proof.
  apply (define_appends_in_order example_host
           [(0%nat, mock_response_1); (1%nat, mock_response_2)]
           (initial example_objects)).
  repeat constructor; discriminate.
Defined.

Lemma when_changes_the_shared_object_witness :
  pattern_of (when 1 scenario) (entry 1 mock_response_2)
  = escaped (pattern_of scenario (entry 1 mock_response_2))
  /\ pattern_of (when 1 scenario) (entry 0 mock_response_1)
     = pattern_of scenario (entry 0 mock_response_1).
Proof.
  destruct (when_changes_the_shared_object 1 scenario (entry 1 mock_response_2))
    as (_ & Hsame & _).
  destruct (when_changes_the_shared_object 1 scenario (entry 0 mock_response_1))
    as (_ & _ & Hother).
  split.
  - now destruct (Hsame eq_refl) as [H _].
  - apply Hother. discriminate.
Defined.

Lemma when_twice_iff_no_quote_witness :
  objects (when 1 (when 1 scenario)) 1 = objects (when 1 scenario) 1.
Proof.
  apply (when_twice_iff_no_quote 1 scenario). reflexivity.
Defined.

Lemma escaped_data_is_found_witness :
  listen_cond example_host (objects (when 1 (initial example_objects)) 1) post_ajax_info_2
  = listen_cond example_host (without_data (example_objects 1)) post_ajax_info_2.
Proof.
  apply (escaped_data_is_found example_host 1 (initial example_objects) post_ajax_info_2
           "member_id=1" "member_id=1&name=x").
  - reflexivity.
  - discriminate.
  - reflexivity.
  - reflexivity.
  - exists EmptyString, "&name=x". reflexivity.
Defined.

Lemma lower_case_method_never_matches_witness :
  listen_cond example_host (example_objects 0)
    {| req_method := "get"; req_url := "/demo/ajax_info_1.txt"; post := None |}
  = Normal false.
Proof.
  apply (lower_case_method_never_matches example_host (example_objects 0)).
  - reflexivity.
  - discriminate.
Defined.

Lemma listener_outcomes_witness :
  snd (listen_handler example_host scenario get_ajax_info_1) = Normal ()
  \/ exists x, snd (listen_handler example_host scenario get_ajax_info_1) = Throw x.
Proof.
  assert (Hp : no_pending scenario) by reflexivity.
  destruct (listener_outcomes example_host scenario get_ajax_info_1 Hp)
    as [(i & e & _ & H) | [[_ H] | (before & e & after & x & _ & _ & _ & H)]];
    rewrite H; [now left | now left | right; now exists x].
Defined.

Lemma listener_throws_only_witness :
  snd (listen_handler example_host unbalanced_first get_b) = Throw (SyntaxError "(")
  /\ no_pending unbalanced_first.
Proof.
  assert (Hx : snd (listen_handler example_host unbalanced_first get_b)
               = Throw (SyntaxError "(")) by (vm_compute; reflexivity).
  split; [exact Hx|].
  destruct (listener_throws_only example_host unbalanced_first get_b _ Hx)
    as [[_ H] | [H _]]; [discriminate | exact H].
Defined.

Lemma filter_redirects_for_every_match_witness :
  bridge_filter casper_host running page_post
  = ([call_existing;
      request_changeUrl "http://example.com/demo/ajax_info_2.txt" (JInt 9001)],
     Normal ()).
Proof.
  apply (filter_redirects_for_every_match casper_host running page_post).
  - repeat constructor; eexists; vm_compute; reflexivity.
  - eexists. vm_compute. reflexivity.
Defined.

Lemma filter_stops_at_a_throw_witness :
  bridge_filter casper_host running page_post_empty = ([call_existing], Throw TypeError).
Proof.
  apply (filter_stops_at_a_throw casper_host running page_post_empty
           [entry 0 mock_response_1] [] (entry 1 mock_response_2) TypeError).
  - reflexivity.
  - repeat constructor. eexists. vm_compute. reflexivity.
  - vm_compute. reflexivity.
Defined.

Lemma filter_needs_post_data_witness :
  changeUrl_cond example_host (example_objects 1) page_post_empty = Throw TypeError.
Proof.
  rewrite (filter_needs_post_data example_host (example_objects 1) page_post_empty).
  - vm_compute. reflexivity.
  - reflexivity.
  - reflexivity.
Defined.

Lemma start_reads_decimal_strings_witness :
  reads_as (JStr " 9001 ") (JInt 9001).
Proof.
  apply (start_reads_decimal_strings example_host " " " " [9; 0; 0; 1]%nat
           (initial example_objects)).
  - discriminate.
  - repeat constructor.
  - reflexivity.
  - reflexivity.
Defined.

(** *** The earlier revision against the later one *)

Section Revisions.

Variable host : Host.

Lemma legacy_build_response (q : RequestPattern) (plan : ResponsePlan)
    (request : Request) :
  Legacy.build_response host q plan request
  = without_file_log (build_response host q plan request).
Proof.
  unfold Legacy.build_response, build_response, without_file_log.
  destruct (simulates_timeout plan); [reflexivity|].
  destruct (negb (isString (responseText plan)) && truthy (responseFile plan));
    [destruct (fs_read host (responseFile plan))|]; reflexivity.
Qed.

Lemma legacy_match_loop (port : jsval) (s : State) (entries : list Entry.t)
    (request : Request) :
  Legacy.match_loop host (legacy_view port s) entries request
  = (without_file_log (fst (match_loop host s entries request)),
     snd (match_loop host s entries request)).
Proof.
  induction entries as [|e entries IH]; [reflexivity|].
  simpl. destruct (listen_cond host (objects s (Entry.request e)) request) as [[|]|x].
  - simpl. now rewrite legacy_build_response.
  - exact IH.
  - reflexivity.
Qed.

Lemma match_loop_clear_pending (s : State) (entries : list Entry.t) (request : Request) :
  match_loop host (clear_pending s) entries request = match_loop host s entries request.
Proof. induction entries as [|e rest IH]; simpl; [reflexivity | now rewrite IH]. Qed.

(** X20.  The configuration calls of the two revisions leave the same
    store, pending pattern and filter: [when] and [reset] are the same,
    and [response] differs only in that the earlier revision prints
    where the later one throws. *)
Theorem legacy_configuration_corresponds (port : jsval) (s : State) :
  Legacy.port_is_0 port = num_eq (_port s) (JInt 0) ->
  (forall req, Legacy.when req (legacy_view port s) = legacy_view port (when req s))
  /\ (forall resp,
        Legacy.response host resp (legacy_view port s)
        = legacy_view port (fst (response host resp s)))
  /\ Legacy.reset host (legacy_view port s) = legacy_view port (reset host s).
Proof.
  intros Hport. split; [reflexivity|]. split; [|reflexivity].
  intros resp. unfold Legacy.response, response, legacy_view; simpl.
  destruct (_currentReq s) as [req|] eqn:Hc; [|simpl; now rewrite Hc].
  destruct (keys_length (objects s req) =? 0)%nat; [simpl; now rewrite Hc|].
  unfold Legacy.addToResourceRequestedEvent, addToResourceRequestedEvent; simpl.
  rewrite length_app, Hport. simpl.
  replace (length (_mapping s) + 1 =? 0)%nat with false
    by (symmetry; apply Nat.eqb_neq; lia).
  simpl. destruct (num_eq (_port s) (JInt 0)); [reflexivity|].
  destruct (negb (isCasperInUsed host)); reflexivity.
Qed.

(** X21.  The listener of the earlier revision serves a request while a
    pattern is pending: it prints the warning and then does what the
    later listener does once the slot is empty, except for the log line
    of a response read from a file. *)
Theorem legacy_listener_serves_while_pending (port : jsval) (s : State)
    (request : Request) :
  Legacy.listen_handler host (legacy_view port s) request
  = ((if negb (keys_length (currentReq s) =? 0)%nat
      then [console_log log_pending_when]
      else [])
     ++ without_file_log (fst (listen_handler host (clear_pending s) request)),
     snd (listen_handler host (clear_pending s) request)).
Proof.
  unfold Legacy.listen_handler, listen_handler.
  rewrite legacy_match_loop, match_loop_clear_pending.
  change (Legacy.currentReq (legacy_view port s)) with (currentReq s).
  change (currentReq (clear_pending s)) with empty_object.
  change (Legacy._mapping (legacy_view port s)) with (_mapping s).
  change (_mapping (clear_pending s)) with (_mapping s).
  simpl (negb (keys_length empty_object =? 0)%nat).
  cbv iota.
  destruct (match_loop host s (_mapping s) request) as [evs [[|]|x]]; simpl;
    try reflexivity.
  unfold without_file_log. rewrite List.filter_app. reflexivity.
Qed.

End Revisions.

(** *** Substrings first, and earlier entries first *)

Section Priority.

Variable host : Host.

(** X22.  The substring test comes first: a url pattern that occurs in
    the url of the request is never compiled as a regular expression,
    so the entry is taken or not as the same pattern without url would
    be, whatever the RegExp engine makes of the pattern. *)
Theorem url_found_is_not_compiled (p : RequestPattern) (request : Request)
    (pu : string) :
  url p = Some pu ->
  is_substring pu (req_url request) ->
  listen_cond host p request = listen_cond host (without_url p) request.
Proof.
  intros Hu Hsub. apply indexOf_is_substring in Hsub.
  unfold listen_cond, without_url. cbn [method url data]. rewrite Hu. simpl.
  rewrite Hsub. now destruct (negb (String.eqb pu EmptyString)).
Qed.

(** X23.  A mapping defined later never overrides an earlier one: when
    a request is answered from the entry at index [i], defining one more
    mapping, on a request object that none of the entries up to [i]
    refers to, leaves the answer to that request as it was. *)
Theorem later_mapping_is_shadowed (s : State) (request : Request) (i : nat)
    (e : Entry.t) (req : ref) (plan : ResponsePlan) :
  no_pending s ->
  first_match host s request i e ->
  (forall j e', (j <= i)%nat -> _mapping s !! j = Some e' -> Entry.request e' <> req) ->
  keys_length (objects s req) <> 0%nat ->
  listen_handler host (fst (response host plan (when req s))) request
  = listen_handler host s request.
Proof.
  intros Hp Hf Hfresh Hk.
  destruct (response_pending host plan (when req s) req) as (s' & Hs & Hm & Hn & Ho).
  { reflexivity. }
  { now rewrite keys_length_when. }
  rewrite Hs. simpl.
  assert (Hp' : no_pending s') by (unfold no_pending, currentReq; now rewrite Hn).
  assert (Hsame : forall j e', (j <= i)%nat -> _mapping s !! j = Some e' ->
                    pattern_of s' e' = pattern_of s e').
  { intros j e' Hj Hl. unfold pattern_of. rewrite Ho.
    apply objects_when_other. now apply (Hfresh j). }
  destruct Hf as (Hi & He & Hbefore).
  assert (Hf' : first_match host s' request i e).
  { split; [|split].
    - rewrite Hm, mapping_when. rewrite lookup_app_l; [exact Hi|].
      apply lookup_lt_is_Some. eauto.
    - unfold matched. rewrite (Hsame i e (Nat.le_refl i) Hi). exact He.
    - intros j e' Hj Hl. rewrite Hm, mapping_when in Hl.
      assert (Hlen : (i < length (_mapping s))%nat)
        by (apply lookup_lt_is_Some; eauto).
      rewrite lookup_app_l in Hl by lia.
      rewrite (Hsame j e') by (lia || exact Hl). now apply (Hbefore j). }
  rewrite (listen_handler_takes host s' request i e Hp' Hf').
  rewrite (listen_handler_takes host s request i e Hp (conj Hi (conj He Hbefore))).
  now rewrite (Hsame i e (Nat.le_refl i) Hi).
Qed.

End Priority.

(** *** Closed instances, continued *)

Lemma legacy_configuration_corresponds_witness :
  Legacy.response example_host hang (legacy_view (JStr "9001") (when 0 running))
  = legacy_view (JStr "9001") (fst (response example_host hang (when 0 running))).
Proof.
  apply (legacy_configuration_corresponds example_host (JStr "9001") (when 0 running)).
  reflexivity.
Defined.

Lemma url_found_is_not_compiled_witness :
  listen_cond example_host (example_objects 3)
    {| req_method := "GET"; req_url := "/f(x)"; post := None |}
  = Normal true.
Proof.
  rewrite (url_found_is_not_compiled example_host (example_objects 3)
             {| req_method := "GET"; req_url := "/f(x)"; post := None |} "(").
  - reflexivity.
  - reflexivity.
  - exists "/f", "x)". reflexivity.
Defined.

Lemma later_mapping_is_shadowed_witness :
  listen_handler example_host
    (fst (response example_host hang (when 4 scenario))) get_ajax_info_1
  = listen_handler example_host scenario get_ajax_info_1.
Proof.
  apply (later_mapping_is_shadowed example_host scenario get_ajax_info_1 0
           (entry 0 mock_response_1) 4 hang).
  - reflexivity.
  - split; [reflexivity|]. split; [vm_compute; reflexivity|]. intros j e' Hj. lia.
  - intros j e' Hj. destruct j as [|j]; [|lia].
    intros H. injection H as <-. discriminate.
  - discriminate.
Defined.
